(** * cogno-aid-stream: the confusion-scoring pipeline and its fan-out loop

    A shallow embedding of
      - backend/bci/confusion_detector.py   (module [Detector]),
      - backend/bci/data_processor.py       (module [Processor]),
      - backend/websocket/connection_manager.py and backend/main.py
        (modules [Manager] and [Main]).

    Numbers.  Python floats are modelled by [pyfloat]: a finite value is an
    exact rational (rounding and overflow are abstracted away), and NaN is
    kept as a value of its own because the built-in [min]/[max] and the
    comparison operators decide differently on it.  Where the rounding
    itself decides a property, the expression is embedded on binary64 floats
    (module [Binary64]). *)

From Corelib Require PrimFloat.
From Stdlib Require Import QArith Qminmax Qabs Qpower Lqa ZArith List Bool Lia.
From stdpp Require Import base gmap list strings.

Open Scope Q_scope.

(** ** Python floats *)

Module PyFloat.

Inductive pyfloat : Type :=
  | Fin (q : Q)
  | NaN.

Definition lift2 (op : Q -> Q -> Q) (a b : pyfloat) : pyfloat :=
  match a, b with
  | Fin x, Fin y => Fin (op x y)
  | _, _ => NaN
  end.

Definition fadd : pyfloat -> pyfloat -> pyfloat := lift2 Qplus.
Definition fsub : pyfloat -> pyfloat -> pyfloat := lift2 Qminus.
Definition fmul : pyfloat -> pyfloat -> pyfloat := lift2 Qmult.

(** Division.  Every divisor in the embedded code is either a non-zero
    constant, [max(baseline, 1.0)], or an array length; a zero divisor can
    only meet a zero dividend there, which numpy evaluates to nan. *)
Definition fdiv (a b : pyfloat) : pyfloat :=
  match a, b with
  | Fin x, Fin y => if Qeq_bool y 0 then NaN else Fin (x / y)
  | _, _ => NaN
  end.

Definition fabs (a : pyfloat) : pyfloat :=
  match a with
  | Fin x => Fin (Qabs x)
  | NaN => NaN
  end.

Definition Qltb (x y : Q) : bool := negb (Qle_bool y x).

(** [a < b], [a > b], [a <= b]: every comparison with NaN is False. *)
Definition fltb (a b : pyfloat) : bool :=
  match a, b with
  | Fin x, Fin y => Qltb x y
  | _, _ => false
  end.

Definition fgtb (a b : pyfloat) : bool := fltb b a.

Definition fleb (a b : pyfloat) : bool :=
  match a, b with
  | Fin x, Fin y => Qle_bool x y
  | _, _ => false
  end.

(** The built-ins [max(a, b)] and [min(a, b)]: the first argument is kept
    unless the second one compares strictly greater (resp. smaller). *)
Definition py_max (a b : pyfloat) : pyfloat := if fgtb b a then b else a.
Definition py_min (a b : pyfloat) : pyfloat := if fltb b a then b else a.

(** The same two built-ins on finite values. *)
Definition qmax (x y : Q) : Q := if Qltb x y then y else x.
Definition qmin (x y : Q) : Q := if Qltb y x then y else x.

(** [0.0 <= a <= 1.0] as Python evaluates it. *)
Definition in_unit (a : pyfloat) : bool := fleb (Fin 0) a && fleb a (Fin 1).

(** Equality of floats up to the representation of the rational. *)
Definition feq (a b : pyfloat) : Prop :=
  match a, b with
  | Fin x, Fin y => x == y
  | NaN, NaN => True
  | _, _ => False
  end.

Definition is_nan (a : pyfloat) : bool :=
  match a with NaN => true | Fin _ => false end.

End PyFloat.

Import PyFloat.

Notation "a =f b" := (feq a b) (at level 70, no associativity).

(** ** The smoothing expression on binary64 floats *)

Module Binary64.

Import PrimFloat.

(** The literals 0.3 and 0.1 as Python reads them: the nearest binary64
    values. *)
Definition alpha : float := 0x1.3333333333333p-2%float.
Definition tenth : float := 0x1.999999999999ap-4%float.

(** [_smooth_confusion_level] of confusion_detector.py, with the rounding
    of its three operations. *)
Definition _smooth_confusion_level (history : list float) (new_level : float)
    : float :=
  match history with
  | [] => new_level
  | _ =>
      let previous_level := List.last history 0%float in
      (alpha * new_level + (1 - alpha) * previous_level)%float
  end.

(** The last score after [n] identical raw scores [r], from a last score
    [p]. *)
Fixpoint constant_stream (n : nat) (p r : float) : float :=
  match n with
  | O => p
  | S n => constant_stream n (_smooth_confusion_level [p] r) r
  end.

End Binary64.

(** ** backend/bci/confusion_detector.py *)

Module Detector.

(** The dict returned by [_extract_features]; it always carries these seven
    keys.  The spectral estimate itself (scipy's [welch]) is outside the
    embedding, so the scorer is studied on the features it receives. *)
Record Features : Type := {
  theta_power : pyfloat;
  alpha_power : pyfloat;
  beta_power : pyfloat;
  gamma_power : pyfloat;
  theta_alpha_ratio : pyfloat;
  beta_alpha_ratio : pyfloat;
  cognitive_load_index : pyfloat
}.

Record ConfusionDetector : Type := {
  confusion_history : list pyfloat;
  baseline_established : bool;
  baseline_alpha : pyfloat;
  baseline_beta : pyfloat;
  baseline_theta : pyfloat
}.

(** [self.window_size], set once by [__init__] and never assigned again. *)
Definition window_size : nat := 50.

(** [__init__] *)
Definition init : ConfusionDetector := {|
  confusion_history := [];
  baseline_established := false;
  baseline_alpha := Fin 0;
  baseline_beta := Fin 0;
  baseline_theta := Fin 0
|}.

(** [_establish_baseline] *)
Definition _establish_baseline (d : ConfusionDetector) : ConfusionDetector :=
  if (10 <? length (confusion_history d))%nat then
    {| confusion_history := confusion_history d;
       baseline_established := true;
       baseline_alpha := Fin 1;
       baseline_beta := Fin 1;
       baseline_theta := Fin 1 |}
  else d.

(** [_calculate_confusion_score].  [variation] is the value of
    [np.sin(asyncio.get_event_loop().time() * 0.1) * 0.1] read at the call. *)
Definition _calculate_confusion_score
    (d : ConfusionDetector) (features : Features) (variation : pyfloat)
    : ConfusionDetector * pyfloat :=
  let d :=
    if negb (baseline_established d) && (10 <? length (confusion_history d))%nat
    then _establish_baseline d else d in
  let theta_score :=
    fsub (py_min (fdiv (theta_power features) (py_max (baseline_theta d) (Fin 1)))
                 (Fin 2)) (Fin 1) in
  let alpha_score :=
    fsub (Fin 1)
         (py_min (fdiv (alpha_power features) (py_max (baseline_alpha d) (Fin 1)))
                 (Fin 2)) in
  let beta_score :=
    fsub (py_min (fdiv (beta_power features) (py_max (baseline_beta d) (Fin 1)))
                 (Fin 2)) (Fin 1) in
  let cognitive_load :=
    py_min (fdiv (cognitive_load_index features) (Fin 2)) (Fin 1) in
  let confusion_score :=
    fadd (fadd (fadd (fmul (Fin (3#10)) (py_max theta_score (Fin 0)))
                     (fmul (Fin (3#10)) (py_max alpha_score (Fin 0))))
               (fmul (Fin (2#10)) (py_max beta_score (Fin 0))))
         (fmul (Fin (2#10)) cognitive_load) in
  (d, fadd confusion_score variation).

(** [_smooth_confusion_level], its arithmetic read without rounding;
    [Binary64._smooth_confusion_level] is the same expression on binary64
    floats. *)
Definition _smooth_confusion_level
    (history : list pyfloat) (new_level : pyfloat) : pyfloat :=
  match history with
  | [] => new_level
  | _ =>
      let alpha := Fin (3#10) in
      let previous_level := List.last history (Fin 0) in
      fadd (fmul alpha new_level) (fmul (fsub (Fin 1) alpha) previous_level)
  end.

(** [history.append(x)] followed by the [pop(0)] of an over-long history. *)
Definition store (history : list pyfloat) (x : pyfloat) : list pyfloat :=
  let history := history ++ [x] in
  if (window_size <? length history)%nat then tl history else history.

(** The final clamp of [analyze_confusion]. *)
Definition clamp01 (x : pyfloat) : pyfloat := py_min (py_max x (Fin 0)) (Fin 1).

(** The part of [analyze_confusion] that follows the raw score: smoothing,
    the history update and the clamped return value. *)
Definition record_score (d : ConfusionDetector) (raw : pyfloat)
    : ConfusionDetector * pyfloat :=
  let confusion_score := _smooth_confusion_level (confusion_history d) raw in
  ({| confusion_history := store (confusion_history d) confusion_score;
      baseline_established := baseline_established d;
      baseline_alpha := baseline_alpha d;
      baseline_beta := baseline_beta d;
      baseline_theta := baseline_theta d |},
   clamp01 confusion_score).

(** [analyze_confusion], from the extracted features on. *)
Definition analyze_confusion
    (d : ConfusionDetector) (features : Features) (variation : pyfloat)
    : ConfusionDetector * pyfloat :=
  let '(d, confusion_score) := _calculate_confusion_score d features variation in
  record_score d confusion_score.

(** A session: one [analyze_confusion] call per sample, in order. *)
Definition run (d : ConfusionDetector) (samples : list (Features * pyfloat))
    : ConfusionDetector :=
  fold_left (fun d s => fst (analyze_confusion d (fst s) (snd s))) samples d.

(** Number of calls of a session in which the baseline flag goes from
    [False] to [True]. *)
Fixpoint transitions (d : ConfusionDetector) (samples : list (Features * pyfloat))
    : nat :=
  match samples with
  | [] => 0
  | s :: rest =>
      let d' := fst (analyze_confusion d (fst s) (snd s)) in
      ((if negb (baseline_established d) && baseline_established d' then 1 else 0)
       + transitions d' rest)%nat
  end.

(** The detector with another history. *)
Definition with_history (d : ConfusionDetector) (history : list pyfloat)
    : ConfusionDetector :=
  {| confusion_history := history;
     baseline_established := baseline_established d;
     baseline_alpha := baseline_alpha d;
     baseline_beta := baseline_beta d;
     baseline_theta := baseline_theta d |}.

(** A stream of [n] identical raw scores [r] pushed through the smoothing
    and history update. *)
Fixpoint feed_constant (n : nat) (d : ConfusionDetector) (r : pyfloat)
    : ConfusionDetector :=
  match n with
  | O => d
  | S n => feed_constant n (fst (record_score d r)) r
  end.

(** The claimed score on finite features, in the claim's words:
    [0.3·max(theta_score,0) + 0.3·max(alpha_score,0) + 0.2·max(beta_score,0)
     + 0.2·cognitive_load]. *)
Definition weighted_sum (baseline_theta baseline_alpha baseline_beta : Q)
    (theta alpha beta load_index : Q) : Q :=
  let theta_score := Qmin (theta / baseline_theta) 2 - 1 in
  let alpha_score := 1 - Qmin (alpha / baseline_alpha) 2 in
  let beta_score := Qmin (beta / baseline_beta) 2 - 1 in
  let cognitive_load := Qmin (load_index / 2) 1 in
  (3#10) * Qmax theta_score 0 + (3#10) * Qmax alpha_score 0
  + (2#10) * Qmax beta_score 0 + (2#10) * cognitive_load.

(** Features with finite values; the two ratios play no part in the score. *)
Definition finite_features (theta alpha beta gamma load_index : Q) : Features :=
  {| theta_power := Fin theta;
     alpha_power := Fin alpha;
     beta_power := Fin beta;
     gamma_power := Fin gamma;
     theta_alpha_ratio := Fin (theta / Qmax alpha (1#1000));
     beta_alpha_ratio := Fin (beta / Qmax alpha (1#1000));
     cognitive_load_index := Fin load_index |}.

(** What [_extract_features] returns when no frontal channel is present. *)
Definition zero_features : Features := finite_features 0 0 0 0 0.

(** What it returns for [{'eeg': {'AF3': float('nan')}}]: the spectral
    estimate of a NaN signal is NaN in every band. *)
Definition nan_features : Features :=
  {| theta_power := NaN;
     alpha_power := NaN;
     beta_power := NaN;
     gamma_power := NaN;
     theta_alpha_ratio := NaN;
     beta_alpha_ratio := NaN;
     cognitive_load_index := NaN |}.

(** A detector after calibration, with the given history. *)
Definition calibrated (history : list pyfloat) : ConfusionDetector :=
  {| confusion_history := history;
     baseline_established := true;
     baseline_alpha := Fin 1;
     baseline_beta := Fin 1;
     baseline_theta := Fin 1 |}.

(** *** Feature extraction and trend *)

(** The mean power of one channel in the four bands, as
    [np.mean(psd[band])] gives it after scipy's [welch]. *)
Record band_powers : Type := {
  theta_band : pyfloat;
  alpha_band : pyfloat;
  beta_band : pyfloat;
  gamma_band : pyfloat
}.

(** The running sums of the channel loop and [channel_count]. *)
Record band_sums : Type := {
  theta_sum : pyfloat;
  alpha_sum : pyfloat;
  beta_sum : pyfloat;
  gamma_sum : pyfloat;
  channel_count : nat
}.

Definition frontal_channels : list string :=
  ["AF3"; "AF4"; "F3"; "F4"; "F7"; "F8"]%string.

Definition is_frontal (channel : string) : bool :=
  existsb (String.eqb channel) frontal_channels.

(** The channel loop of [_extract_features].  A channel comes with the
    band powers of its spectral estimate, or with [None] when computing
    them raises; the estimate is only computed for frontal channels.  The
    result is [None] when the loop was left by an exception. *)
Fixpoint sum_channels (eeg_channels : list (string * option band_powers))
    (acc : band_sums) : option band_sums :=
  match eeg_channels with
  | [] => Some acc
  | (channel, spectrum) :: rest =>
      if is_frontal channel then
        match spectrum with
        | None => None
        | Some b =>
            sum_channels rest
              {| theta_sum := fadd (theta_sum acc) (theta_band b);
                 alpha_sum := fadd (alpha_sum acc) (alpha_band b);
                 beta_sum := fadd (beta_sum acc) (beta_band b);
                 gamma_sum := fadd (gamma_sum acc) (gamma_band b);
                 channel_count := S (channel_count acc) |}
        end
      else sum_channels rest acc
  end.

Definition no_sums : band_sums :=
  {| theta_sum := Fin 0; alpha_sum := Fin 0; beta_sum := Fin 0;
     gamma_sum := Fin 0; channel_count := 0 |}.

(** The dict of zeros of the [else] and [except] branches. *)
Definition all_zero : Features :=
  {| theta_power := Fin 0;
     alpha_power := Fin 0;
     beta_power := Fin 0;
     gamma_power := Fin 0;
     theta_alpha_ratio := Fin 0;
     beta_alpha_ratio := Fin 0;
     cognitive_load_index := Fin 0 |}.

Definition count_float (n : nat) : pyfloat := Fin (inject_Z (Z.of_nat n)).

(** [_extract_features], from the band powers of the channels on. *)
Definition _extract_features (eeg_channels : list (string * option band_powers))
    : Features :=
  match sum_channels eeg_channels no_sums with
  | Some s =>
      if (0 <? channel_count s)%nat then
        let guarded_alpha := py_max (alpha_sum s) (Fin (1#1000)) in
        {| theta_power := fdiv (theta_sum s) (count_float (channel_count s));
           alpha_power := fdiv (alpha_sum s) (count_float (channel_count s));
           beta_power := fdiv (beta_sum s) (count_float (channel_count s));
           gamma_power := fdiv (gamma_sum s) (count_float (channel_count s));
           theta_alpha_ratio := fdiv (theta_sum s) guarded_alpha;
           beta_alpha_ratio := fdiv (beta_sum s) guarded_alpha;
           cognitive_load_index :=
             fdiv (fadd (theta_sum s) (beta_sum s)) guarded_alpha |}
      else all_zero
  | None => all_zero
  end.

(** A channel with finite band powers. *)
Definition finite_channel (channel : string) (theta alpha beta gamma : Q)
    : string * option band_powers :=
  (channel, Some {| theta_band := Fin theta; alpha_band := Fin alpha;
                    beta_band := Fin beta; gamma_band := Fin gamma |}).

(** The strings returned by [get_confusion_trend]. *)
Inductive trend : Type :=
  | insufficient_data
  | increasing
  | decreasing
  | stable.

Definition sum_Q (l : list Q) : Q := fold_right Qplus 0 l.

(** [np.polyfit(range(len(ys)), ys, 1)[0]]: the slope of the least-squares
    line through the points [(i, ys[i])], in exact arithmetic. *)
Definition least_squares_slope (ys : list Q) : Q :=
  let n := inject_Z (Z.of_nat (length ys)) in
  let xs := map (fun i => inject_Z (Z.of_nat i)) (seq 0 (length ys)) in
  let sx := sum_Q xs in
  let sy := sum_Q ys in
  let sxy := sum_Q (map (fun xy => fst xy * snd xy) (combine xs ys)) in
  let sxx := sum_Q (map (fun x => x * x) xs) in
  (n * sxy - sx * sy) / (n * sxx - sx * sx).

(** The values of a list of floats when none of them is NaN. *)
Fixpoint finite_values (l : list pyfloat) : option (list Q) :=
  match l with
  | [] => Some []
  | Fin x :: rest =>
      match finite_values rest with
      | Some xs => Some (x :: xs)
      | None => None
      end
  | NaN :: _ => None
  end.

Definition classify (slope : Q) : trend :=
  if Qltb (2#100) slope then increasing
  else if Qltb slope (-(2#100)) then decreasing
  else stable.

(** [get_confusion_trend].  The fit is embedded for windows of numbers;
    a window that holds NaN is left out ([None]). *)
Definition get_confusion_trend (d : ConfusionDetector) : option trend :=
  if (length (confusion_history d) <? 5)%nat then Some insufficient_data
  else
    let recent := drop (length (confusion_history d) - 5) (confusion_history d) in
    match finite_values recent with
    | Some ys => Some (classify (least_squares_slope ys))
    | None => None
    end.

(** A session on finite samples: theta, alpha and beta power, the cognitive
    load index and the clock term of each call. *)
Definition finite_sample (s : Q * Q * Q * Q * Q) : Features * pyfloat :=
  let '(theta, alpha, beta, load_index, variation) := s in
  (finite_features theta alpha beta 0 load_index, Fin variation).






(** The divisors [max(baseline, 1.0)] of the score are all 1.0. *)
Definition unit_divisors (d : ConfusionDetector) : Prop :=
  py_max (baseline_theta d) (Fin 1) = Fin 1
  /\ py_max (baseline_alpha d) (Fin 1) = Fin 1
  /\ py_max (baseline_beta d) (Fin 1) = Fin 1.

(** No NaN among the scores. *)
Definition numbers (l : list pyfloat) : bool :=
  forallb (fun x => negb (is_nan x)) l.


(** *** The Python type of the returned level *)

(** Whether [min(max(x, 0.0), 1.0)] returns [x] itself rather than one of
    the literals [0.0] and [1.0]: the built-ins return one of their
    arguments. *)
Definition clamp_keeps (x : pyfloat) : bool :=
  negb (fgtb (Fin 0) x) && negb (fltb (Fin 1) (py_max x (Fin 0))).

(** Whether the level returned by [analyze_confusion] is a numpy scalar.
    The raw score always is one, since [variation] comes from [np.sin], and
    so is the smoothed score; the level is that scalar unless the clamp
    replaced it by a Python float literal. *)
Definition level_is_numpy (d : ConfusionDetector) (features : Features)
    (variation : pyfloat) : bool :=
  let '(d, confusion_score) := _calculate_confusion_score d features variation in
  clamp_keeps (_smooth_confusion_level (confusion_history d) confusion_score).

End Detector.

(** ** backend/bci/data_processor.py *)

Module Processor.

(** A [collections.deque] created with [maxlen]. *)
Record deque : Type := {
  maxlen : nat;
  items : list pyfloat
}.

(** [deque(maxlen=n)]: a negative [n] raises ValueError ([None]). *)
Definition new_deque (n : Z) : option deque :=
  if (n <? 0)%Z then None else Some {| maxlen := Z.to_nat n; items := [] |}.

(** [dq.append(x)]: the new item goes to the right end, and a deque that
    has grown past [maxlen] drops its leftmost item. *)
Definition deque_append (dq : deque) (x : pyfloat) : deque :=
  let grown := items dq ++ [x] in
  {| maxlen := maxlen dq;
     items := if (maxlen dq <? length grown)%nat then tl grown else grown |}.

(** [for sample in xs: dq.append(sample)] *)
Definition deque_extend (dq : deque) (xs : list pyfloat) : deque :=
  fold_left deque_append xs dq.

(** What a channel of the input dict holds: one reading or an array. *)
Inductive signal_data : Type :=
  | Scalar (x : pyfloat)
  | Array (xs : list pyfloat).

Record DataProcessor : Type := {
  sample_rate : Z;
  channel_buffers : gmap string deque
}.

(** [self.buffer_size = sample_rate * 2], two seconds of data. *)
Definition buffer_size (p : DataProcessor) : Z := (sample_rate p * 2)%Z.

(** [self.amplitude_threshold] and [self.gradient_threshold]. *)
Definition amplitude_threshold : pyfloat := Fin 200.
Definition gradient_threshold : pyfloat := Fin 50.

(** [__init__]; the default sample rate is 128. *)
Definition init (sample_rate : Z) : DataProcessor :=
  {| sample_rate := sample_rate; channel_buffers := ∅ |}.

Definition default_sample_rate : Z := 128.

(** The buffering part of one iteration of the channel loop of
    [process_eeg_signal]: create the channel's deque when it is missing and
    append the new data.  [None] is the ValueError of the deque constructor,
    which leaves the loop. *)
Definition buffer_channel (p : DataProcessor) (channel : string)
    (data : signal_data) : option DataProcessor :=
  let found :=
    match channel_buffers p !! channel with
    | Some dq => Some dq
    | None => new_deque (buffer_size p)
    end in
  match found with
  | None => None
  | Some dq =>
      let dq :=
        match data with
        | Scalar x => deque_append dq x
        | Array xs => deque_extend dq xs
        end in
      Some {| sample_rate := sample_rate p;
              channel_buffers := <[channel := dq]> (channel_buffers p) |}
  end.

(** The effect of [process_eeg_signal] on the processor: the channels of
    [eeg_data['eeg']] are visited in the dict's order; an exception ends the
    call (the handler returns the input) and keeps what was buffered so far.
    The filters that run on a copy of a full buffer do not touch it. *)
Fixpoint process_eeg_signal (p : DataProcessor)
    (eeg_channels : list (string * signal_data)) : DataProcessor :=
  match eeg_channels with
  | [] => p
  | (channel, data) :: rest =>
      match buffer_channel p channel data with
      | None => p
      | Some p => process_eeg_signal p rest
      end
  end.

(** Successive calls, one per sample batch. *)
Definition feed (p : DataProcessor) (batches : list (list (string * signal_data)))
    : DataProcessor :=
  fold_left process_eeg_signal batches p.

(** [np.sum(np.abs(a) > threshold)] *)
Definition count_above (threshold : pyfloat) (a : list pyfloat) : nat :=
  length (List.filter (fun x => fgtb (fabs x) threshold) a).

(** [np.diff] *)
Fixpoint np_diff (a : list pyfloat) : list pyfloat :=
  match a with
  | x :: (y :: _) as rest => fsub y x :: np_diff rest
  | _ => []
  end.

(** An integer count as a float. *)
Definition of_nat (n : nat) : pyfloat := Fin (inject_Z (Z.of_nat n)).

(** [_check_amplitude_artifacts] *)
Definition _check_amplitude_artifacts (signal_data : list pyfloat) : pyfloat :=
  let artifact_samples := count_above amplitude_threshold signal_data in
  let quality :=
    fsub (Fin 1) (fdiv (of_nat artifact_samples) (of_nat (length signal_data))) in
  py_max quality (Fin 0).

(** [_check_gradient_artifacts] *)
Definition _check_gradient_artifacts (signal_data : list pyfloat) : pyfloat :=
  let gradient := np_diff signal_data in
  let artifact_samples := count_above gradient_threshold gradient in
  let quality :=
    fsub (Fin 1) (fdiv (of_nat artifact_samples) (of_nat (length gradient))) in
  py_max quality (Fin 0).

(** [np.interp(x, xp, fp)] at an integer abscissa, [points] being the pairs
    of [xp] and [fp]: the end values outside the range, and otherwise
    [slope * (x - xp[j]) + fp[j]] on the segment that holds [x]. *)
Fixpoint interp_from (x x0 : nat) (y0 : pyfloat) (points : list (nat * pyfloat))
    : pyfloat :=
  match points with
  | [] => y0
  | (x1, y1) :: rest =>
      if (x <? x1)%nat then
        let slope := fdiv (fsub y1 y0) (fsub (of_nat x1) (of_nat x0)) in
        fadd (fmul slope (fsub (of_nat x) (of_nat x0))) y0
      else interp_from x x1 y1 rest
  end.

Definition np_interp (x : nat) (points : list (nat * pyfloat)) : pyfloat :=
  match points with
  | [] => NaN
  | (x0, y0) :: rest => if (x <=? x0)%nat then y0 else interp_from x x0 y0 rest
  end.

Definition is_outlier (x : pyfloat) : bool := fgtb (fabs x) amplitude_threshold.

(** [_correct_artifacts] *)
Definition _correct_artifacts (signal_data : list pyfloat) : list pyfloat :=
  let indexed := combine (seq 0 (length signal_data)) signal_data in
  if existsb is_outlier signal_data then
    let valid := List.filter (fun ix => negb (is_outlier (snd ix))) indexed in
    if (1 <? length valid)%nat then
      map (fun ix => if is_outlier (snd ix) then np_interp (fst ix) valid else snd ix)
          indexed
    else signal_data
  else signal_data.

(** [_detect_artifacts] *)
Definition _detect_artifacts (signal_data : list pyfloat)
    : list pyfloat * pyfloat :=
  let amplitude_quality := _check_amplitude_artifacts signal_data in
  let gradient_quality := _check_gradient_artifacts signal_data in
  let quality_score := fdiv (fadd amplitude_quality gradient_quality) (Fin 2) in
  let corrected_signal :=
    if fltb quality_score (Fin (1#2)) then _correct_artifacts signal_data
    else signal_data in
  (corrected_signal, quality_score).

(** The claim's words on rational windows: how many samples exceed a
    threshold in absolute value, and the sample-to-sample deltas. *)
Definition exceeding (threshold : Q) (w : list Q) : nat :=
  length (List.filter (fun x => Qltb threshold (Qabs x)) w).

Fixpoint deltas (w : list Q) : list Q :=
  match w with
  | x :: (y :: _) as rest => (y - x) :: deltas rest
  | _ => []
  end.

Definition fraction (k n : nat) : Q :=
  inject_Z (Z.of_nat k) / inject_Z (Z.of_nat n).

(** The samples delivered to [channel] by one batch, and by a session. *)
Definition samples_of (data : signal_data) : list pyfloat :=
  match data with
  | Scalar x => [x]
  | Array xs => xs
  end.

Definition delivered (channel : string) (batch : list (string * signal_data))
    : list pyfloat :=
  concat (map (fun cd => if String.eqb (fst cd) channel then samples_of (snd cd) else [])
              batch).

Definition delivered_all (channel : string)
    (batches : list (list (string * signal_data))) : list pyfloat :=
  concat (map (delivered channel) batches).

Definition mentions (channel : string) (batch : list (string * signal_data)) : bool :=
  existsb (fun cd => String.eqb (fst cd) channel) batch.

(** The deque a channel of [p] starts from, when it can be created. *)
Definition fresh (p : DataProcessor) : deque :=
  {| maxlen := Z.to_nat (buffer_size p); items := [] |}.

(** Two batches for a processor at 1 Hz (capacity 2): an array of three
    readings and then a single one on the same channel. *)
Definition two_batches : list (list (string * signal_data)) :=
  [[("AF3"%string, Array [Fin 1; Fin 2; Fin 3])]; [("AF3"%string, Scalar (Fin 4))]].

(** A window that is half above the amplitude threshold and smooth, and
    one whose spikes are corrected. *)
Definition plateau_window : list Q := [210; 205; 195; 190].
Definition spiky_window : list Q := [0; 300; 0; 300].

(** The last [n] items of a list. *)
Definition last_n {A : Type} (n : nat) (l : list A) : list A :=
  drop (length l - n) l.

(** *** Smoothing, reset and the returned dict *)



(** [reset_buffers] *)
Definition reset_buffers (p : DataProcessor) : DataProcessor :=
  {| sample_rate := sample_rate p; channel_buffers := ∅ |}.

(** What [processed_data['eeg'][channel]] holds: the incoming data as they
    came, or the last sample of the processed signal. *)
Inductive channel_value : Type :=
  | Echoed (data : signal_data)
  | Processed (x : pyfloat).

(** [processed_data]: its ['eeg'] and ['quality'] entries, in the order of
    the channels. *)
Record processed_data : Type := {
  eeg_of : list (string * channel_value);
  quality_of : list (string * pyfloat)
}.

Section Returned.

(** [_process_channel]: the scipy filters followed by [_detect_artifacts]
    and [_apply_smoothing]; it catches its own exceptions. *)
Variable _process_channel : string -> list pyfloat -> list pyfloat * pyfloat.

(** One iteration of the channel loop, with what it adds to the dict. *)
Definition process_channel_entry (p : DataProcessor) (channel : string)
    (data : signal_data)
    : option (DataProcessor * (string * channel_value) * (string * pyfloat)) :=
  match buffer_channel p channel data with
  | None => None
  | Some p' =>
      let buffered :=
        match channel_buffers p' !! channel with
        | Some dq => items dq
        | None => []
        end in
      if (128 <=? length buffered)%nat then
        let '(processed_signal, quality) := _process_channel channel buffered in
        Some (p', (channel, Processed (List.last processed_signal (Fin 0))),
              (channel, quality))
      else Some (p', (channel, Echoed data), (channel, Fin (1#2)))
  end.

(** [process_eeg_signal] with its result: the processed dict, or [None]
    when an exception made it return the input unchanged. *)
Fixpoint process_eeg_signal_returning (p : DataProcessor)
    (eeg_channels : list (string * signal_data)) (out : processed_data)
    : DataProcessor * option processed_data :=
  match eeg_channels with
  | [] => (p, Some out)
  | (channel, data) :: rest =>
      match process_channel_entry p channel data with
      | None => (p, None)
      | Some (p', e, q) =>
          process_eeg_signal_returning p' rest
            {| eeg_of := eeg_of out ++ [e]; quality_of := quality_of out ++ [q] |}
      end
  end.

End Returned.

(** Every buffer of [p] was made for the capacity of [p] and respects it. *)
Definition well_buffered (p : DataProcessor) : Prop :=
  forall c dq, channel_buffers p !! c = Some dq ->
    maxlen dq = Z.to_nat (buffer_size p) /\ (length (items dq) <= maxlen dq)%nat.

(** A window with a number of clean samples, and the same with outliers
    only. *)
Definition noisy_window : list Q := [300; 10; 300; 300; 40; 300].

(** An interpolation point that holds a number within the amplitude
    threshold. *)
Definition clean_point (p : nat * pyfloat) : Prop :=
  exists y, snd p = Fin y /\ -(200) <= y <= 200.

(** The dict returned when every channel is echoed. *)
Definition all_echoed (eeg_channels : list (string * signal_data)) : processed_data :=
  {| eeg_of := map (fun cd => (fst cd, Echoed (snd cd))) eeg_channels;
     quality_of := map (fun cd => (fst cd, Fin (1#2))) eeg_channels |}.

Definition empty_dict : processed_data := {| eeg_of := []; quality_of := [] |}.

End Processor.

(** ** backend/websocket/connection_manager.py *)

Module Manager.

(** A WebSocket is an opaque connection handle. *)
Definition WebSocket : Type := nat.

(** The messages of the server, by their ["type"] and the fields the claims
    read; timestamps are left out. *)
Inductive message : Type :=
  | connection_established
  | confusion_update (level : pyfloat) (threshold_exceeded : bool)
  | help_suggestion (confusion_level : pyfloat)
  | threshold_updated (threshold : pyfloat)
  | pong
  | status_response (connected_clients : nat).

(** [client_data[ws]] *)
Record client_info : Type := {
  connected_at : Q;
  last_ping : Q
}.

Record ConnectionManager : Type := {
  active_connections : list WebSocket;
  client_data : gmap nat client_info
}.

(** [__init__] *)
Definition init : ConnectionManager :=
  {| active_connections := []; client_data := ∅ |}.

(** The peers, as one call sees them: on which sockets [send_text] and
    [close] raise. *)
Record network : Type := {
  send_raises : WebSocket -> bool;
  close_raises : WebSocket -> bool
}.

(** The manager together with what went out on the wire and which sockets
    were closed. *)
Record state : Type := {
  manager : ConnectionManager;
  wire : list (WebSocket * message);
  closed : list WebSocket
}.

(** Coroutines of the manager: they change the state and return or raise;
    what was changed before an exception stays changed. *)
Inductive outcome (A : Type) : Type :=
  | Return (a : A)
  | Raise.

Arguments Return {A} a.
Arguments Raise {A}.

Definition M (A : Type) : Type := state -> outcome A * state.

Definition ret {A : Type} (a : A) : M A := fun s => (Return a, s).

Definition bind {A B : Type} (m : M A) (k : A -> M B) : M B :=
  fun s =>
    match m s with
    | (Return a, s') => k a s'
    | (Raise, s') => (Raise, s')
    end.

(** [try: body  except Exception: handler] *)
Definition try_except {A : Type} (body handler : M A) : M A :=
  fun s =>
    match body s with
    | (Return a, s') => (Return a, s')
    | (Raise, s') => handler s'
    end.

(** [try: body  finally: final] *)
Definition try_finally {A : Type} (body : M A) (final : M unit) : M A :=
  fun s =>
    match body s with
    | (r, s') =>
        match final s' with
        | (Return _, s'') => (r, s'')
        | (Raise, s'') => (Raise, s'')
        end
    end.

Notation "'do' x <- m ; k" := (bind m (fun x => k))
  (at level 10, x name, m at level 100, k at level 200).

(** [await websocket.send_text(...)] *)
Definition send_text (net : network) (ws : WebSocket) (msg : message) : M unit :=
  fun s =>
    if send_raises net ws then (Raise, s)
    else (Return tt, {| manager := manager s;
                        wire := wire s ++ [(ws, msg)];
                        closed := closed s |}).

(** [await websocket.close()] *)
Definition close (net : network) (ws : WebSocket) : M unit :=
  fun s =>
    if close_raises net ws then (Raise, s)
    else (Return tt, {| manager := manager s;
                        wire := wire s;
                        closed := closed s ++ [ws] |}).

(** [list.remove(x)] on a list that holds [x]: the first occurrence goes. *)
Fixpoint list_remove (x : WebSocket) (l : list WebSocket) : list WebSocket :=
  match l with
  | [] => []
  | y :: rest => if Nat.eqb x y then rest else y :: list_remove x rest
  end.

(** [disconnect], on the manager and as a step of a coroutine. *)
Definition disconnect_manager (ws : WebSocket) (m : ConnectionManager)
    : ConnectionManager :=
  {| active_connections :=
       if existsb (Nat.eqb ws) (active_connections m)
       then list_remove ws (active_connections m) else active_connections m;
     client_data :=
       match client_data m !! ws with
       | Some _ => delete ws (client_data m)
       | None => client_data m
       end |}.

Definition disconnect (ws : WebSocket) : M unit :=
  fun s =>
    (Return tt, {| manager := disconnect_manager ws (manager s);
                   wire := wire s;
                   closed := closed s |}).

(** [_handle_connection_error] *)
Definition _handle_connection_error (net : network) (ws : WebSocket) : M unit :=
  try_finally (try_except (close net ws) (ret tt)) (disconnect ws).

(** [send_personal_message] *)
Definition send_personal_message (net : network) (msg : message) (ws : WebSocket)
    : M unit :=
  try_except (send_text net ws msg) (_handle_connection_error net ws).

(** The first loop of [broadcast]; the accumulator is [disconnected_clients]. *)
Fixpoint send_to_all (net : network) (msg : message)
    (connections disconnected_clients : list WebSocket) : M (list WebSocket) :=
  match connections with
  | [] => ret disconnected_clients
  | connection :: rest =>
      do disconnected_clients <-
        try_except (do _ <- send_text net connection msg; ret disconnected_clients)
                   (ret (disconnected_clients ++ [connection]));
      send_to_all net msg rest disconnected_clients
  end.

(** The second loop of [broadcast]. *)
Fixpoint clean_up (net : network) (clients : list WebSocket) : M unit :=
  match clients with
  | [] => ret tt
  | client :: rest => do _ <- _handle_connection_error net client; clean_up net rest
  end.

(** [broadcast] *)
Definition broadcast (net : network) (msg : message) : M unit :=
  fun s =>
    match active_connections (manager s) with
    | [] => (Return tt, s)
    | connections =>
        (do disconnected_clients <- send_to_all net msg connections [];
         clean_up net disconnected_clients) s
    end.

(** An exception that nothing catches on the spot. *)
Definition raise {A : Type} : M A := fun s => (Raise, s).

(** [broadcast] with the outcome of its [json.dumps(message)], which runs
    once there is a subscriber: a message that is not serialisable makes
    [broadcast] raise TypeError before anything is sent. *)
Definition broadcast_json (serialisable : bool) (net : network) (msg : message)
    : M unit :=
  fun s =>
    match active_connections (manager s) with
    | [] => (Return tt, s)
    | _ => if serialisable then broadcast net msg s else (Raise, s)
    end.

(** The decoded body of a client message: its ["type"] and what the
    handler reads of ["data"].  For [ping], whether the payload is an object
    (on anything else [payload.get] raises AttributeError); for
    [set_threshold], the numeric ["threshold"] of an object payload when the
    key is there, and [malformed_set_threshold] for a payload that is no
    object or whose threshold is no number (AttributeError or TypeError). *)
Inductive client_message : Type :=
  | ping (payload_is_object : bool)
  | set_threshold (threshold : option pyfloat)
  | malformed_set_threshold
  | request_status
  | unknown.

(** [_handle_ping]; [now] is the reading of the event loop's clock.  The
    pong is built from [payload.get('timestamp')] after [last_ping] was
    set. *)
Definition _handle_ping (net : network) (now : Q) (ws : WebSocket)
    (payload_is_object : bool) : M unit :=
  do _ <- (fun s =>
     let m := manager s in
     let data :=
       match client_data m !! ws with
       | Some info =>
           <[ws := {| connected_at := connected_at info; last_ping := now |}]>
             (client_data m)
       | None => client_data m
       end in
     (Return tt, {| manager := {| active_connections := active_connections m;
                                  client_data := data |};
                    wire := wire s;
                    closed := closed s |}));
  if payload_is_object then send_personal_message net pong ws else raise.

(** The validation line of [_handle_threshold_update]. *)
Definition validate_threshold (threshold : pyfloat) : pyfloat :=
  py_max (Fin 0) (py_min (Fin 1) threshold).

(** [_handle_threshold_update] *)
Definition _handle_threshold_update (net : network) (ws : WebSocket)
    (payload : option pyfloat) : M unit :=
  let threshold := match payload with Some t => t | None => Fin (7#10) end in
  let threshold := validate_threshold threshold in
  broadcast net (threshold_updated threshold).

(** [_handle_status_request] *)
Definition _handle_status_request (net : network) (ws : WebSocket) : M unit :=
  fun s =>
    send_personal_message net
      (status_response (length (active_connections (manager s)))) ws s.

(** [handle_client_message], after [json.loads] *)
Definition handle_client_message (net : network) (now : Q) (ws : WebSocket)
    (msg : client_message) : M unit :=
  try_except
    match msg with
    | ping payload_is_object => _handle_ping net now ws payload_is_object
    | set_threshold payload => _handle_threshold_update net ws payload
    | malformed_set_threshold => raise
    | request_status => _handle_status_request net ws
    | unknown => ret tt
    end
    (ret tt).

(** A manager with the given subscribers, before anything was sent. *)
Definition serving (connections : list WebSocket) : state :=
  {| manager := {| active_connections := connections;
                   client_data :=
                     list_to_map
                       (map (fun ws => (ws, {| connected_at := 0; last_ping := 0 |}))
                            connections) |};
     wire := [];
     closed := [] |}.

(** A network on which sending raises on the sockets of [broken] only. *)
Definition failing (broken : list WebSocket) : network :=
  {| send_raises := fun ws => existsb (Nat.eqb ws) broken;
     close_raises := fun _ => false |}.

(** *** Registration and the stale sweep *)

(** [connect].  [accept_raises] tells whether [websocket.accept()] raises;
    [t1] and [t2] are the two readings of the clock. *)
Definition connect (net : network) (accept_raises : bool) (t1 t2 : Q)
    (ws : WebSocket) : M unit :=
  fun s =>
    if accept_raises then (Raise, s)
    else
      let m := manager s in
      send_personal_message net connection_established ws
        {| manager :=
             {| active_connections := active_connections m ++ [ws];
                client_data :=
                  <[ws := {| connected_at := t1; last_ping := t2 |}]> (client_data m) |};
           wire := wire s;
           closed := closed s |}.

(** The test of [cleanup_stale_connections], with [stale_threshold = 300]. *)
Definition is_stale (current_time : Q) (data : client_info) : bool :=
  Qltb 300 (current_time - last_ping data).

(** [cleanup_stale_connections].  The stale sockets are collected over
    [client_data.items()] and then handled one by one; the order of the
    dict, which the map does not keep, decides the order of the closes but
    not the manager that results. *)
Definition cleanup_stale_connections (net : network) (current_time : Q) : M unit :=
  fun s =>
    let stale_connections :=
      map fst (List.filter (fun wd => is_stale current_time (snd wd))
                           (map_to_list (client_data (manager s)))) in
    clean_up net stale_connections s.

(** A registered socket whose last ping is stale at [current_time]. *)
Definition stale_socket (current_time : Q) (m : ConnectionManager) (ws : WebSocket)
    : bool :=
  match client_data m !! ws with
  | Some data => is_stale current_time data
  | None => false
  end.

(** Three subscribers that pinged at times 0, 100 and 500. *)
Definition three_clients : state :=
  {| manager :=
       {| active_connections := [1; 2; 3]%nat;
          client_data :=
            <[1%nat := {| connected_at := 0; last_ping := 0 |}]>
              (<[2%nat := {| connected_at := 0; last_ping := 100 |}]>
                 (<[3%nat := {| connected_at := 0; last_ping := 500 |}]> ∅)) |};
     wire := [];
     closed := [] |}.

End Manager.

(** ** backend/main.py *)

Module Main.

(** The module-level "global state". *)
Record globals : Type := {
  current_confusion_level : pyfloat;
  confusion_threshold : pyfloat;
  bci_connected : bool
}.

Definition initial_globals : globals :=
  {| current_confusion_level := Fin 0;
     confusion_threshold := Fin (7#10);
     bci_connected := false |}.

(** The process: the globals and the module-level component instances. *)
Record server : Type := {
  state_of : globals;
  confusion_detector : Detector.ConfusionDetector;
  manager : Manager.state
}.

Definition initial_server : server :=
  {| state_of := initial_globals;
     confusion_detector := Detector.init;
     manager := {| Manager.manager := Manager.init;
                   Manager.wire := [];
                   Manager.closed := [] |} |}.

(** The coroutines of main.py that are started or awaited by name. *)
Inductive coroutine : Type :=
  | bci_data_loop
  | handle_confusion_threshold.

(** What a task of the event loop does, in program order: the coroutines it
    awaits, which it runs to completion before its next statement, and the
    tasks it hands to the event loop with [asyncio.create_task]. *)
Inductive step : Type :=
  | await_init_db
  | await_connect
  | await_get_eeg_data
  | await_analyze_confusion
  | await_capture_screen
  | await_analyze_screenshot
  | await_generate_help
  | await_broadcast (msg : Manager.message)
  | await_sleep (milliseconds : nat)
  | create_task (c : coroutine).

(** [startup_event] *)
Definition startup_event : list step := [await_init_db; create_task bci_data_loop].

(** What one iteration of the loop meets outside of the process. *)
Record tick_input : Type := {
  connect_result : bool;
  eeg_data : option (Detector.Features * pyfloat);
  net : Manager.network;
  help_is_json : bool
}.

(** The body of [handle_confusion_threshold].  The analyzer and the help
    generator catch their own exceptions; [help_is_json] tells whether what
    they returned can be serialised, and when it cannot the TypeError of
    [broadcast] is caught and logged here. *)
Definition handle_confusion_threshold_body (net : Manager.network)
    (help_is_json : bool) (level : pyfloat) (m : Manager.state)
    : Manager.state * list step :=
  let msg := Manager.help_suggestion level in
  (snd (Manager.broadcast_json help_is_json net msg m),
   [await_capture_screen; await_analyze_screenshot; await_generate_help;
    await_broadcast msg]).

(** One iteration of the [while True] of [bci_data_loop], as the source
    writes it: [await handle_confusion_threshold()] inside the loop body.
    The flag [current_confusion_level > confusion_threshold] of the update is
    a numpy bool when the level is a numpy scalar, and [json.dumps] does not
    serialise it; the TypeError reaches the [except] of the loop, which sets
    [bci_connected = False] and sleeps one second. *)
Definition bci_tick (inp : tick_input) (s : server) : server * list step :=
  let g := state_of s in
  let '(connected, steps0) :=
    if negb (bci_connected g) then (connect_result inp, [await_connect])
    else (true, []) in
  if connected then
    match eeg_data inp with
    | Some (features, variation) =>
        let '(d, level) :=
          Detector.analyze_confusion (confusion_detector s) features variation in
        let numpy_level :=
          Detector.level_is_numpy (confusion_detector s) features variation in
        let exceeded := fgtb level (confusion_threshold g) in
        let '(m, steps1) :=
          if exceeded
          then handle_confusion_threshold_body (net inp) (help_is_json inp) level
                 (manager s)
          else (manager s, []) in
        let msg := Manager.confusion_update level exceeded in
        let steps :=
          steps0 ++ [await_get_eeg_data; await_analyze_confusion] ++ steps1
                 ++ [await_broadcast msg] in
        match Manager.broadcast_json (negb numpy_level) (net inp) msg m with
        | (Manager.Return _, m') =>
            ({| state_of := {| current_confusion_level := level;
                               confusion_threshold := confusion_threshold g;
                               bci_connected := true |};
                confusion_detector := d;
                manager := m' |},
             steps ++ [await_sleep 100])
        | (Manager.Raise, m') =>
            ({| state_of := {| current_confusion_level := level;
                               confusion_threshold := confusion_threshold g;
                               bci_connected := false |};
                confusion_detector := d;
                manager := m' |},
             steps ++ [await_sleep 1000])
        end
    | None =>
        ({| state_of := {| current_confusion_level := current_confusion_level g;
                           confusion_threshold := confusion_threshold g;
                           bci_connected := true |};
            confusion_detector := confusion_detector s;
            manager := manager s |},
         steps0 ++ [await_get_eeg_data; await_sleep 100])
    end
  else
    ({| state_of := {| current_confusion_level := current_confusion_level g;
                       confusion_threshold := confusion_threshold g;
                       bci_connected := false |};
        confusion_detector := confusion_detector s;
        manager := manager s |},
     steps0 ++ [await_sleep 100]).

(** The steps of the advisory pipeline. *)
Definition is_advisory_step (st : step) : bool :=
  match st with
  | await_capture_screen | await_analyze_screenshot | await_generate_help
  | await_broadcast (Manager.help_suggestion _) => true
  | _ => false
  end.


(** [update_threshold], the handler of POST /threshold. *)
Definition update_threshold (threshold : pyfloat) (s : server) : server :=
  {| state_of := {| current_confusion_level := current_confusion_level (state_of s);
                    confusion_threshold := Manager.validate_threshold threshold;
                    bci_connected := bci_connected (state_of s) |};
     confusion_detector := confusion_detector s;
     manager := manager s |}.

(** A client message handled by the manager of the process.  The handlers
    of connection_manager.py see the manager only: the module imports
    nothing of main.py and assigns none of its globals. *)
Definition on_client_message (net : Manager.network) (now : Q)
    (ws : Manager.WebSocket) (msg : Manager.client_message) (s : server) : server :=
  {| state_of := state_of s;
     confusion_detector := confusion_detector s;
     manager := snd (Manager.handle_client_message net now ws msg (manager s)) |}.

(** A process with two subscribers and the default threshold. *)
Definition served : server :=
  {| state_of := initial_globals;
     confusion_detector := Detector.init;
     manager := Manager.serving [1; 2]%nat |}.

(** A first sample on which the score reaches 1.0: theta and beta power at
    twice the reference, no alpha power, the clock term at 0.0; the device
    connects and no send raises. *)
Definition alarming : tick_input :=
  {| connect_result := true;
     eeg_data := Some (Detector.finite_features 2 0 2 0 4, Fin 0);
     net := Manager.failing [];
     help_is_json := true |}.

(** *** The process under its inputs *)

(** What can happen to the process: an iteration of the sampling loop, a
    client message handled by the manager, a POST to /threshold. *)
Inductive event : Type :=
  | tick (inp : tick_input)
  | client_message (net : Manager.network) (now : Q) (ws : Manager.WebSocket)
      (msg : Manager.client_message)
  | post_threshold (threshold : pyfloat).

Definition apply_event (s : server) (e : event) : server :=
  match e with
  | tick inp => fst (bci_tick inp s)
  | client_message net now ws msg => on_client_message net now ws msg s
  | post_threshold threshold => update_threshold threshold s
  end.

Definition after (events : list event) (s : server) : server :=
  fold_left apply_event events s.

(** The messages of a trace that are broadcast. *)
Definition is_broadcast (st : step) : bool :=
  match st with
  | await_broadcast _ => true
  | _ => false
  end.

(** The process with the detector replaced. *)
Definition with_detector (s : server) (d : Detector.ConfusionDetector) : server :=
  {| state_of := state_of s; confusion_detector := d; manager := manager s |}.

(** The value of the last POST to /threshold among the events. *)
Definition last_post (events : list event) : option pyfloat :=
  fold_left (fun found e =>
               match e with
               | post_threshold threshold => Some threshold
               | _ => found
               end) events None.

(** An iteration on which the device gives no data. *)
Definition silent : tick_input :=
  {| connect_result := true; eeg_data := None; net := Manager.failing [];
     help_is_json := true |}.

End Main.

(** * Properties *)

(** ** Floats *)

Module PyFloatFacts.

Lemma Qltb_lt (x y : Q) : Qltb x y = true <-> x < y.
Proof.
  unfold Qltb. rewrite negb_true_iff, <- not_true_iff_false, Qle_bool_iff.
  split; [apply Qnot_le_lt | apply Qlt_not_le].
Qed.

Lemma Qltb_ge (x y : Q) : Qltb x y = false <-> y <= x.
Proof.
  unfold Qltb. rewrite negb_false_iff. apply Qle_bool_iff.
Qed.

Lemma qmax_spec (x y : Q) : qmax x y == Qmax x y.
Proof.
  unfold qmax. destruct (Qltb x y) eqn:E.
  - apply Qltb_lt in E. symmetry. apply Q.max_r. lra.
  - apply Qltb_ge in E. symmetry. apply Q.max_l. exact E.
Qed.

Lemma qmin_spec (x y : Q) : qmin x y == Qmin x y.
Proof.
  unfold qmin. destruct (Qltb y x) eqn:E.
  - apply Qltb_lt in E. symmetry. apply Q.min_r. lra.
  - apply Qltb_ge in E. symmetry. apply Q.min_l. exact E.
Qed.

Lemma py_max_fin (x y : Q) : py_max (Fin x) (Fin y) = Fin (qmax x y).
Proof. unfold py_max, qmax, fgtb, fltb. now destruct (Qltb x y). Qed.

Lemma py_min_fin (x y : Q) : py_min (Fin x) (Fin y) = Fin (qmin x y).
Proof. unfold py_min, qmin, fltb. now destruct (Qltb y x). Qed.

Lemma qmax_bounds (x y : Q) : x <= qmax x y /\ y <= qmax x y.
Proof.
  unfold qmax. destruct (Qltb x y) eqn:E.
  - apply Qltb_lt in E. lra.
  - apply Qltb_ge in E. lra.
Qed.

Lemma qmin_bounds (x y : Q) : qmin x y <= x /\ qmin x y <= y.
Proof.
  unfold qmin. destruct (Qltb y x) eqn:E.
  - apply Qltb_lt in E. lra.
  - apply Qltb_ge in E. lra.
Qed.

Lemma in_unit_fin (x : Q) : in_unit (Fin x) = true <-> 0 <= x <= 1.
Proof.
  unfold in_unit, fleb. rewrite andb_true_iff, !Qle_bool_iff. reflexivity.
Qed.

Lemma feq_refl (a : pyfloat) : a =f a.
Proof. destruct a; simpl; [reflexivity | exact I]. Qed.

End PyFloatFacts.

Import PyFloatFacts.

(** ** The confusion scorer *)

Module DetectorFacts.
Import Detector.

(** The returned level of a finite smoothed score is within [0,1]. *)
Lemma clamp01_fin (x : Q) : in_unit (clamp01 (Fin x)) = true.
Proof.
  unfold clamp01. rewrite py_max_fin, py_min_fin. apply in_unit_fin.
  pose proof (qmax_bounds x 0) as [_ H0].
  unfold qmin. destruct (Qltb 1 (qmax x 0)) eqn:E.
  - lra.
  - apply Qltb_ge in E. lra.
Qed.

Lemma clamp01_nan : clamp01 NaN = NaN.
Proof. reflexivity. Qed.


Lemma store_length (h : list pyfloat) (x : pyfloat) :
  length (store h x) =
  if (window_size <=? length h)%nat then length h else S (length h).
Proof.
  unfold store. rewrite length_app, Nat.add_1_r.
  destruct (window_size <? S (length h))%nat eqn:E.
  - apply Nat.ltb_lt in E. destruct (window_size <=? length h)%nat eqn:E'.
    + destruct h; simpl in *; [unfold window_size in *; lia|].
      rewrite length_app. simpl. lia.
    + apply Nat.leb_gt in E'. lia.
  - apply Nat.ltb_ge in E. destruct (window_size <=? length h)%nat eqn:E'.
    + apply Nat.leb_le in E'. lia.
    + rewrite length_app. simpl. lia.
Qed.

Lemma smooth_snoc (h : list pyfloat) (p r : Q) :
  _smooth_confusion_level (h ++ [Fin p]) (Fin r)
  = Fin ((3#10) * r + (1 - (3#10)) * p).
Proof.
  unfold _smooth_confusion_level. rewrite last_last.
  destruct (h ++ [Fin p]) eqn:E; [destruct h; discriminate E | reflexivity].
Qed.


Lemma store_snoc (h : list pyfloat) (x : pyfloat) :
  exists h', store h x = h' ++ [x].
Proof.
  unfold store. destruct (window_size <? length (h ++ [x]))%nat eqn:E.
  - destruct h as [|y h]; [discriminate E|]. exists h. reflexivity.
  - exists h. reflexivity.
Qed.

Lemma calculate_history (d : ConfusionDetector) (f : Features) (v : pyfloat) :
  confusion_history (fst (_calculate_confusion_score d f v)) = confusion_history d.
Proof.
  unfold _calculate_confusion_score, _establish_baseline. simpl.
  destruct (negb (baseline_established d) && (10 <? length (confusion_history d))%nat);
    [|reflexivity].
  destruct (10 <? length (confusion_history d))%nat; reflexivity.
Qed.

Lemma analyze_unfold (d : ConfusionDetector) (f : Features) (v : pyfloat) :
  analyze_confusion d f v
  = record_score (fst (_calculate_confusion_score d f v))
                 (snd (_calculate_confusion_score d f v)).
Proof.
  unfold analyze_confusion. now destruct (_calculate_confusion_score d f v).
Qed.

Lemma analyze_established (d : ConfusionDetector) (f : Features) (v : pyfloat) :
  baseline_established (fst (analyze_confusion d f v))
  = baseline_established d || (10 <? length (confusion_history d))%nat.
Proof.
  rewrite analyze_unfold. unfold record_score, _calculate_confusion_score,
    _establish_baseline. simpl.
  destruct (baseline_established d) eqn:E; simpl; [exact E|].
  destruct (10 <? length (confusion_history d))%nat; simpl; [reflexivity | exact E].
Qed.

Lemma analyze_history_length (d : ConfusionDetector) (f : Features) (v : pyfloat) :
  length (confusion_history (fst (analyze_confusion d f v)))
  = if (window_size <=? length (confusion_history d))%nat
    then length (confusion_history d) else S (length (confusion_history d)).
Proof.
  rewrite analyze_unfold. unfold record_score. cbn [fst confusion_history].
  rewrite store_length, calculate_history. reflexivity.
Qed.

Lemma run_snoc (d : ConfusionDetector) (l : list (Features * pyfloat))
    (s : Features * pyfloat) :
  run d (l ++ [s]) = fst (analyze_confusion (run d l) (fst s) (snd s)).
Proof. unfold run. now rewrite fold_left_app. Qed.

Lemma run_cons (d : ConfusionDetector) (s : Features * pyfloat)
    (l : list (Features * pyfloat)) :
  run d (s :: l) = run (fst (analyze_confusion d (fst s) (snd s))) l.
Proof. reflexivity. Qed.

Lemma run_init_shape (samples : list (Features * pyfloat)) :
  length (confusion_history (run init samples)) = Nat.min (length samples) window_size
  /\ baseline_established (run init samples) = (11 <? length samples)%nat.
Proof.
  induction samples as [|s l [IHlen IHest]] using rev_ind; [split; reflexivity|].
  rewrite run_snoc, analyze_history_length, analyze_established, IHlen, IHest.
  rewrite length_app, Nat.add_1_r. unfold window_size. split.
  - destruct (50 <=? Nat.min (length l) 50)%nat eqn:E;
      [apply Nat.leb_le in E | apply Nat.leb_gt in E]; lia.
  - destruct (11 <? length l)%nat eqn:E1, (10 <? Nat.min (length l) 50)%nat eqn:E2,
             (11 <? S (length l))%nat eqn:E3; try reflexivity;
      repeat match goal with
             | H : (_ <? _)%nat = true |- _ => apply Nat.ltb_lt in H
             | H : (_ <? _)%nat = false |- _ => apply Nat.ltb_ge in H
             end; lia.
Qed.

Lemma run_established_mono (samples : list (Features * pyfloat))
    (d : ConfusionDetector) :
  baseline_established d = true -> baseline_established (run d samples) = true.
Proof.
  revert d. induction samples as [|s l IH]; intros d H; [exact H|].
  rewrite run_cons. apply IH. rewrite analyze_established, H. reflexivity.
Qed.

Lemma transitions_run (samples : list (Features * pyfloat)) (d : ConfusionDetector) :
  transitions d samples
  = if negb (baseline_established d) && baseline_established (run d samples)
    then 1%nat else 0%nat.
Proof.
  revert d. induction samples as [|s l IH]; intros d.
  - simpl. now destruct (baseline_established d).
  - cbn [transitions]. rewrite IH, run_cons.
    destruct (baseline_established d) eqn:E.
    + pose proof (analyze_established d (fst s) (snd s)) as H. rewrite E in H.
      cbn [orb] in H. rewrite H. reflexivity.
    + destruct (baseline_established (fst (analyze_confusion d (fst s) (snd s)))) eqn:E'.
      * cbn [negb andb]. rewrite (run_established_mono l _ E'). reflexivity.
      * reflexivity.
Qed.


Lemma analyze_result (d : ConfusionDetector) (f : Features) (v : pyfloat) :
  snd (analyze_confusion d f v)
  = clamp01 (_smooth_confusion_level (confusion_history d)
               (snd (_calculate_confusion_score d f v))).
Proof.
  rewrite analyze_unfold. unfold record_score. cbn [snd].
  rewrite calculate_history. reflexivity.
Qed.


(** C1.  On NaN features the clamp of [analyze_confusion] does not hold:
    for the features of a NaN reading, a fresh detector returns NaN, which
    is not within [0.0, 1.0]; [max(nan, 0.0)] keeps its first argument. *)
Theorem analyze_confusion_nan_escapes_clamp :
  snd (analyze_confusion init nan_features (Fin 0)) = NaN
  /\ in_unit (snd (analyze_confusion init nan_features (Fin 0))) = false
  /\ Manager.validate_threshold NaN = Fin 1.
Proof. repeat split. Qed.

(** Whenever the smoothed score is a number, the returned level is within
    [0.0, 1.0]. *)
Lemma analyze_confusion_finite_in_unit (d : ConfusionDetector) (f : Features)
    (v : pyfloat) (x : Q) :
  _smooth_confusion_level (confusion_history d)
    (snd (_calculate_confusion_score d f v)) = Fin x ->
  in_unit (snd (analyze_confusion d f v)) = true.
Proof. intros H. rewrite analyze_result, H. apply clamp01_fin. Qed.

Lemma calculate_calibrated (h : list pyfloat) (theta alpha beta gamma load_index v : Q) :
  _calculate_confusion_score (calibrated h)
    (finite_features theta alpha beta gamma load_index) (Fin v)
  = (calibrated h,
     Fin ((3#10) * qmax (qmin (theta / 1) 2 - 1) 0
          + (3#10) * qmax (1 - qmin (alpha / 1) 2) 0
          + (2#10) * qmax (qmin (beta / 1) 2 - 1) 0
          + (2#10) * qmin (load_index / 2) 1 + v)).
Proof.
  unfold _calculate_confusion_score, calibrated, finite_features.
  cbn [baseline_established negb andb baseline_theta baseline_alpha baseline_beta
       theta_power alpha_power beta_power cognitive_load_index].
  replace (py_max (Fin 1) (Fin 1)) with (Fin 1) by reflexivity. unfold fdiv.
  replace (Qeq_bool 1 0) with false by reflexivity.
  replace (Qeq_bool 2 0) with false by reflexivity.
  rewrite !py_min_fin. unfold fsub, fmul, fadd, lift2.
  rewrite !py_max_fin. reflexivity.
Qed.

(** C4 (as stated, refuted).  With every feature at 0.0 and the clock term
    at 0.05, a calibrated detector scores 0.35, while the claimed sum is
    0.3. *)
Lemma raw_score_exceeds_weighted_sum :
  snd (_calculate_confusion_score (calibrated []) zero_features (Fin (1#20)))
    =f Fin (35#100)
  /\ weighted_sum 1 1 1 0 0 0 0 == 3#10
  /\ ~ 35#100 == 3#10.
Proof. repeat split. intros H; discriminate H. Qed.

(** C4 (amended).  After calibration the raw score of finite features is
    the claimed weighted sum plus the clock term
    [sin(0.1 t) * 0.1] of the call; the detector is left as it was. *)
Theorem raw_score_is_weighted_sum_plus_variation
    (h : list pyfloat) (theta alpha beta gamma load_index v : Q) :
  snd (_calculate_confusion_score (calibrated h)
         (finite_features theta alpha beta gamma load_index) (Fin v))
    =f Fin (weighted_sum 1 1 1 theta alpha beta load_index + v)
  /\ fst (_calculate_confusion_score (calibrated h)
         (finite_features theta alpha beta gamma load_index) (Fin v))
     = calibrated h.
Proof.
  rewrite calculate_calibrated. split; [|reflexivity].
  cbn [snd feq]. unfold weighted_sum. rewrite !qmax_spec, !qmin_spec.
  reflexivity.
Qed.

(** C5.  A call of [analyze_confusion] sets the baseline flag exactly when
    it is unset and the history holds more than 10 scores, and then it sets
    the three reference levels to 1.0; it never clears the flag nor changes
    the levels otherwise.  Hence a fresh detector is uncalibrated through
    its first 11 samples and calibrated from the next call on, and a session
    of any length sees the transition at most once: once when it is longer
    than 11 samples. *)
Theorem baseline_transition_once :
  (forall d f v,
     baseline_established (fst (analyze_confusion d f v))
     = baseline_established d || (10 <? length (confusion_history d))%nat)
  /\ (forall d f v,
        let d' := fst (analyze_confusion d f v) in
        if negb (baseline_established d) && (10 <? length (confusion_history d))%nat
        then baseline_theta d' = Fin 1 /\ baseline_alpha d' = Fin 1
             /\ baseline_beta d' = Fin 1
        else baseline_theta d' = baseline_theta d
             /\ baseline_alpha d' = baseline_alpha d
             /\ baseline_beta d' = baseline_beta d)
  /\ (forall samples,
        baseline_established (run init samples) = (11 <? length samples)%nat)
  /\ (forall samples,
        transitions init samples = if (11 <? length samples)%nat then 1%nat else 0%nat).
Proof.
  split; [exact analyze_established|]. split; [|split].
  - intros d f v d'. subst d'. rewrite analyze_unfold.
    unfold record_score, _calculate_confusion_score, _establish_baseline.
    cbn [fst baseline_theta baseline_alpha baseline_beta].
    destruct (negb (baseline_established d) && (10 <? length (confusion_history d))%nat)
      eqn:E.
    + apply andb_true_iff in E as [_ E]. rewrite E. repeat split.
    + repeat split.
  - intros samples. apply run_init_shape.
  - intros samples. rewrite transitions_run.
    destruct (run_init_shape samples) as [_ ->]. reflexivity.
Qed.



Lemma feed_constant_succ (n : nat) (d : ConfusionDetector) (r : pyfloat) :
  feed_constant (S n) d r = fst (record_score (feed_constant n d r) r).
Proof.
  revert d. induction n as [|n IH]; intros d; [reflexivity|].
  change (feed_constant (S (S n)) d r)
    with (feed_constant (S n) (fst (record_score d r)) r).
  rewrite IH. reflexivity.
Qed.

Lemma decay_succ (n : nat) :
  (7#10) ^ Z.of_nat (S n) == (7#10) * (7#10) ^ Z.of_nat n.
Proof.
  rewrite Nat2Z.inj_succ, <- Z.add_1_l, Qpower_plus by discriminate.
  reflexivity.
Qed.

Ltac split_minmax p r :=
  destruct (Q.min_spec p r) as [[? ?Hmin]|[? ?Hmin]];
  destruct (Q.max_spec p r) as [[? ?Hmax]|[? ?Hmax]];
  rewrite ?Hmin, ?Hmax.

Lemma smooth_between (p r : Q) :
  Qmin p r <= (3#10) * r + (1 - (3#10)) * p <= Qmax p r.
Proof. split_minmax p r; lra. Qed.

Lemma smooth_closer (p r : Q) :
  Qabs ((3#10) * r + (1 - (3#10)) * p - r) <= Qabs (p - r).
Proof.
  apply Qabs_case; intros H1; apply Qabs_case; intros H2; lra.
Qed.

Lemma record_score_snoc (d : ConfusionDetector) (h : list pyfloat) (s r : Q) :
  confusion_history d = h ++ [Fin s] ->
  exists h',
    confusion_history (fst (record_score d (Fin r)))
    = h' ++ [Fin ((3#10) * r + (1 - (3#10)) * s)].
Proof.
  intros H. unfold record_score. cbn [fst confusion_history].
  rewrite H, smooth_snoc. apply store_snoc.
Qed.

Lemma feed_constant_last (n : nat) (d : ConfusionDetector) (h : list pyfloat)
    (p r : Q) :
  confusion_history d = h ++ [Fin p] ->
  exists h' s,
    confusion_history (feed_constant n d (Fin r)) = h' ++ [Fin s]
    /\ s - r == (7#10) ^ Z.of_nat n * (p - r)
    /\ Qmin p r <= s <= Qmax p r.
Proof.
  intros H. induction n as [|n (h' & s & Hh & Hs & Hb)].
  - exists h, p. split; [exact H|]. split.
    + change ((7#10) ^ Z.of_nat 0) with 1. lra.
    + split; [apply Q.le_min_l | apply Q.le_max_l].
  - rewrite feed_constant_succ.
    destruct (record_score_snoc _ _ _ r Hh) as [h'' Hh''].
    exists h'', ((3#10) * r + (1 - (3#10)) * s). split; [exact Hh''|]. split.
    + rewrite decay_succ.
      assert (E : (3#10) * r + (1 - (3#10)) * s - r == (7#10) * (s - r)) by ring.
      rewrite E, Hs. ring.
    + pose proof (smooth_between s r) as Hsr. revert Hb Hsr.
      split_minmax p r; split_minmax s r; intros; lra.
Qed.

End DetectorFacts.

(** ** Smoothing, rounded and exact *)

Module SmoothingFacts.
Import PrimFloat.

Lemma binary64_smooth_snoc (h : list float) (p r : float) :
  Binary64._smooth_confusion_level (h ++ [p]) r
  = (Binary64.alpha * r + (1 - Binary64.alpha) * p)%float.
Proof.
  unfold Binary64._smooth_confusion_level. rewrite last_last.
  destruct h; reflexivity.
Qed.

(** C6 (as stated, refuted).  With the last entry and the raw score both
    0.1, the binary64 result of [0.3 * 0.1 + (1 - 0.3) * 0.1] is
    0.09999999999999999, below [min(p, r) = 0.1]: the smoothed value leaves
    the interval.  A constant stream of 0.1 that starts from 0.1 moves away
    from 0.1 with its first score and stays there after any number of
    scores, so its distance to [r] grows from zero and the stream does not
    come back to [r]. *)
Lemma smoothing_rounds_out_of_interval :
  let p := Binary64.tenth in
  let r := Binary64.tenth in
  let s := Binary64._smooth_confusion_level [p] r in
  s = 0x1.9999999999999p-4%float
  /\ (s <? p)%float = true
  /\ (s <? r)%float = true
  /\ (abs (Binary64.constant_stream 0 p r - r)
        <? abs (Binary64.constant_stream 1 p r - r))%float = true
  /\ Binary64.constant_stream 2 p r = s
  /\ Binary64.constant_stream 50 p r = s.
Proof. vm_compute. repeat split. Qed.

(** C6 (amended).  [_smooth_confusion_level] returns the raw score on an
    empty history and the binary64 value of
    [0.3 * raw + (1 - 0.3) * previous] otherwise.  Evaluated without
    rounding that expression is [0.3 raw + 0.7 previous], a value between
    [previous] and [raw]; under a stream of identical raw scores [r] that
    starts from a last entry [p], the last entry after [n] scores is then
    [r + 0.7^n (p - r)]: it stays between [p] and [r], each score moves it
    towards [r] without passing it, and its distance to [r] never grows. *)
Theorem smoothing_contracts_in_exact_arithmetic :
  (forall r, Binary64._smooth_confusion_level [] r = r)
  /\ (forall h p r,
        Binary64._smooth_confusion_level (h ++ [p]) r
        = (Binary64.alpha * r + (1 - Binary64.alpha) * p)%float)
  /\ (forall r, Detector._smooth_confusion_level [] r = r)
  /\ (forall h p r,
        Detector._smooth_confusion_level (h ++ [Fin p]) (Fin r)
          =f Fin ((3#10) * r + (7#10) * p))
  /\ (forall h p r, exists s,
        Detector._smooth_confusion_level (h ++ [Fin p]) (Fin r) = Fin s
        /\ Qmin p r <= s <= Qmax p r)
  /\ (forall n d h p r, exists s s',
        List.last (Detector.confusion_history
                (Detector.feed_constant n
                   (Detector.with_history d (h ++ [Fin p])) (Fin r))) (Fin 0)
          = Fin s
        /\ List.last (Detector.confusion_history
                (Detector.feed_constant (S n)
                   (Detector.with_history d (h ++ [Fin p])) (Fin r))) (Fin 0)
          = Fin s'
        /\ s - r == (7#10) ^ Z.of_nat n * (p - r)
        /\ Qmin p r <= s <= Qmax p r
        /\ Qmin s r <= s' <= Qmax s r
        /\ Qabs (s' - r) <= Qabs (s - r)).
Proof.
  split; [reflexivity|]. split; [exact binary64_smooth_snoc|].
  split; [reflexivity|]. split; [|split].
  - intros h p r. rewrite DetectorFacts.smooth_snoc. cbn [feq]. ring.
  - intros h p r. eexists.
    split; [apply DetectorFacts.smooth_snoc | apply DetectorFacts.smooth_between].
  - intros n d h p r.
    destruct (DetectorFacts.feed_constant_last n
                (Detector.with_history d (h ++ [Fin p])) h p r eq_refl)
      as (h' & s & Hh & Hs & Hb).
    destruct (DetectorFacts.record_score_snoc _ _ _ r Hh) as [h'' Hh''].
    exists s, ((3#10) * r + (1 - (3#10)) * s).
    rewrite DetectorFacts.feed_constant_succ, Hh, Hh'', !last_last.
    repeat split; try tauto.
    + apply DetectorFacts.smooth_between.
    + apply DetectorFacts.smooth_between.
    + apply DetectorFacts.smooth_closer.
Qed.

End SmoothingFacts.

(** ** The signal conditioner *)

Module ProcessorFacts.
Import Processor.

(** *** The channel buffers *)

Lemma last_n_all {A : Type} (n : nat) (l : list A) :
  (length l <= n)%nat -> last_n n l = l.
Proof.
  intros H. unfold last_n. replace (length l - n)%nat with 0%nat by lia.
  reflexivity.
Qed.

Lemma last_n_length {A : Type} (n : nat) (l : list A) :
  length (last_n n l) = Nat.min n (length l).
Proof. unfold last_n. rewrite length_drop. lia. Qed.

Lemma last_n_app {A : Type} (n : nat) (a b : list A) :
  last_n n (last_n n a ++ b) = last_n n (a ++ b).
Proof.
  destruct (Nat.le_gt_cases (length a) n) as [H|H].
  - now rewrite (last_n_all n a H).
  - unfold last_n at 1 3. rewrite !length_app, last_n_length.
    unfold last_n.
    replace (Nat.min n (length a) + length b - n)%nat with (length b) by lia.
    replace (length a + length b - n)%nat with ((length a - n) + length b)%nat by lia.
    rewrite <- drop_drop, (drop_app_le a b) by lia. reflexivity.
Qed.

Lemma deque_append_items (dq : deque) (x : pyfloat) :
  (length (items dq) <= maxlen dq)%nat ->
  items (deque_append dq x) = last_n (maxlen dq) (items dq ++ [x]).
Proof.
  intros H. unfold deque_append, last_n. cbn [items].
  rewrite length_app. cbn [length].
  destruct (maxlen dq <? length (items dq) + 1)%nat eqn:E.
  - apply Nat.ltb_lt in E.
    replace (length (items dq) + 1 - maxlen dq)%nat with 1%nat by lia.
    now destruct (items dq ++ [x]).
  - apply Nat.ltb_ge in E.
    replace (length (items dq) + 1 - maxlen dq)%nat with 0%nat by lia.
    reflexivity.
Qed.

Lemma deque_extend_maxlen (xs : list pyfloat) (dq : deque) :
  maxlen (deque_extend dq xs) = maxlen dq.
Proof.
  revert dq. induction xs as [|x xs IH]; intros dq; [reflexivity|].
  unfold deque_extend in *. cbn [fold_left]. now rewrite IH.
Qed.

Lemma deque_extend_items (xs : list pyfloat) (dq : deque) :
  (length (items dq) <= maxlen dq)%nat ->
  items (deque_extend dq xs) = last_n (maxlen dq) (items dq ++ xs).
Proof.
  revert dq. induction xs as [|x xs IH]; intros dq H.
  - rewrite app_nil_r. symmetry. now apply last_n_all.
  - change (deque_extend dq (x :: xs)) with (deque_extend (deque_append dq x) xs).
    rewrite IH.
    + rewrite deque_append_items by exact H.
      change (maxlen (deque_append dq x)) with (maxlen dq).
      rewrite last_n_app, <- app_assoc. reflexivity.
    + rewrite deque_append_items by exact H.
      change (maxlen (deque_append dq x)) with (maxlen dq).
      rewrite last_n_length. lia.
Qed.

Lemma deque_extend_app (xs ys : list pyfloat) (dq : deque) :
  deque_extend (deque_extend dq xs) ys = deque_extend dq (xs ++ ys).
Proof. unfold deque_extend. now rewrite fold_left_app. Qed.


Lemma buffer_channel_some (p : DataProcessor) (channel : string) (data : signal_data) :
  (0 <= sample_rate p)%Z ->
  buffer_channel p channel data
  = Some {| sample_rate := sample_rate p;
            channel_buffers :=
              <[channel := deque_extend (default (fresh p) (channel_buffers p !! channel))
                                        (samples_of data)]> (channel_buffers p) |}.
Proof.
  intros H. unfold buffer_channel, new_deque, buffer_size.
  replace (sample_rate p * 2 <? 0)%Z with false by (symmetry; apply Z.ltb_ge; lia).
  destruct (channel_buffers p !! channel); destruct data; reflexivity.
Qed.

Lemma process_sample_rate (batch : list (string * signal_data)) (p : DataProcessor) :
  sample_rate (process_eeg_signal p batch) = sample_rate p.
Proof.
  revert p. induction batch as [|[c data] rest IH]; intros p; [reflexivity|].
  cbn [process_eeg_signal]. destruct (buffer_channel p c data) as [p'|] eqn:E;
    [|reflexivity].
  rewrite IH. unfold buffer_channel in E.
  destruct (match channel_buffers p !! c with
            | Some dq => Some dq | None => new_deque (buffer_size p) end);
    [|discriminate E].
  injection E as <-. reflexivity.
Qed.

Lemma process_lookup (batch : list (string * signal_data)) (p : DataProcessor)
    (c : string) :
  (0 <= sample_rate p)%Z ->
  channel_buffers (process_eeg_signal p batch) !! c
  = match channel_buffers p !! c with
    | Some dq => Some (deque_extend dq (delivered c batch))
    | None =>
        if mentions c batch then Some (deque_extend (fresh p) (delivered c batch))
        else None
    end.
Proof.
  revert p. induction batch as [|[c' data] rest IH]; intros p H.
  - cbn. now destruct (channel_buffers p !! c).
  - cbn [process_eeg_signal]. rewrite buffer_channel_some by exact H.
    rewrite IH by exact H. cbn [channel_buffers sample_rate].
    unfold delivered, mentions. cbn [map concat existsb fst snd].
    fold (delivered c rest). fold (mentions c rest).
    destruct (String.eqb_spec c' c) as [->|Hne].
    + rewrite lookup_insert_eq, deque_extend_app. cbn [orb].
      now destruct (channel_buffers p !! c).
    + rewrite lookup_insert_ne by exact Hne. cbn [orb app].
      destruct (channel_buffers p !! c); reflexivity.
Qed.

Lemma delivered_unmentioned (c : string) (batch : list (string * signal_data)) :
  mentions c batch = false -> delivered c batch = [].
Proof.
  induction batch as [|[c' data] rest IH]; [reflexivity|].
  unfold mentions, delivered. cbn [existsb map concat fst snd].
  destruct (String.eqb c' c); [discriminate|]. exact IH.
Qed.

Lemma feed_cons (p : DataProcessor) (batch : list (string * signal_data))
    (batches : list (list (string * signal_data))) :
  feed p (batch :: batches) = feed (process_eeg_signal p batch) batches.
Proof. reflexivity. Qed.

Lemma feed_lookup (batches : list (list (string * signal_data))) (p : DataProcessor)
    (c : string) :
  (0 <= sample_rate p)%Z ->
  channel_buffers (feed p batches) !! c
  = match channel_buffers p !! c with
    | Some dq => Some (deque_extend dq (delivered_all c batches))
    | None =>
        if existsb (mentions c) batches
        then Some (deque_extend (fresh p) (delivered_all c batches))
        else None
    end.
Proof.
  revert p. induction batches as [|batch rest IH]; intros p H.
  - cbn. now destruct (channel_buffers p !! c).
  - rewrite feed_cons, IH by (now rewrite process_sample_rate).
    rewrite process_lookup by exact H.
    unfold delivered_all. cbn [map concat existsb]. fold (delivered_all c rest).
    assert (Hf : fresh (process_eeg_signal p batch) = fresh p).
    { unfold fresh, buffer_size. now rewrite process_sample_rate. }
    rewrite Hf.
    destruct (channel_buffers p !! c).
    + now rewrite deque_extend_app.
    + destruct (mentions c batch) eqn:E; cbn [orb].
      * now rewrite deque_extend_app.
      * now rewrite (delivered_unmentioned c batch E).
Qed.


Lemma process_negative_rate (batch : list (string * signal_data)) (p : DataProcessor) :
  (sample_rate p < 0)%Z -> channel_buffers p = ∅ -> process_eeg_signal p batch = p.
Proof.
  intros H He. destruct batch as [|[c data] rest]; [reflexivity|].
  cbn [process_eeg_signal]. unfold buffer_channel, new_deque, buffer_size.
  rewrite He, lookup_empty.
  replace (sample_rate p * 2 <? 0)%Z with true by (symmetry; apply Z.ltb_lt; lia).
  reflexivity.
Qed.

Lemma feed_negative_rate (batches : list (list (string * signal_data)))
    (p : DataProcessor) :
  (sample_rate p < 0)%Z -> channel_buffers p = ∅ -> feed p batches = p.
Proof.
  intros H He. induction batches as [|batch rest IH]; [reflexivity|].
  rewrite feed_cons, process_negative_rate by assumption. exact IH.
Qed.

(** C7.  Whatever is fed to a processor, the buffer of a channel has the
    capacity [2 * sample_rate] (256 at 128 Hz), never holds more samples
    than that, and holds the most recent samples delivered to the channel,
    in their order: all of them while they fit, the last [capacity] ones
    afterwards. *)
Theorem channel_buffer_bounded_fifo (rate : Z)
    (batches : list (list (string * signal_data))) (c : string) (dq : deque) :
  channel_buffers (feed (init rate) batches) !! c = Some dq ->
  let capacity := Z.to_nat (rate * 2) in
  maxlen dq = capacity
  /\ (length (items dq) <= capacity)%nat
  /\ items dq = last_n capacity (delivered_all c batches)
  /\ length (items dq) = Nat.min capacity (length (delivered_all c batches))
  /\ Z.to_nat (buffer_size (init default_sample_rate)) = 256%nat.
Proof.
  intros H capacity.
  destruct (Z.lt_ge_cases rate 0) as [Hneg|Hpos].
  - rewrite feed_negative_rate in H by (exact Hneg || reflexivity).
    cbn in H. rewrite lookup_empty in H. discriminate H.
  - rewrite feed_lookup in H by exact Hpos.
    cbn [init channel_buffers] in H. rewrite lookup_empty in H.
    destruct (existsb (mentions c) batches); [|discriminate H].
    injection H as <-.
    rewrite deque_extend_maxlen, deque_extend_items by (cbn; lia).
    cbn [fresh maxlen items app]. fold capacity.
    change (Z.to_nat (buffer_size (init rate))) with capacity.
    rewrite last_n_length. repeat split. lia.
Qed.

Lemma channel_buffer_bounded_fifo_witness :
  channel_buffers (feed (init 1) two_batches) !! "AF3"%string
    = Some {| maxlen := 2; items := [Fin 3; Fin 4] |}
  /\ (length [Fin 3; Fin 4] <= 2)%nat
  /\ [Fin 3; Fin 4] = last_n 2 (delivered_all "AF3" two_batches).
Proof.
  assert (H : channel_buffers (feed (init 1) two_batches) !! "AF3"%string
              = Some {| maxlen := 2; items := [Fin 3; Fin 4] |})
    by (vm_compute; reflexivity).
  split; [exact H|].
  pose proof (channel_buffer_bounded_fifo 1 two_batches "AF3"
                {| maxlen := 2; items := [Fin 3; Fin 4] |} H) as (_ & Hlen & Hfifo & _).
  split; [exact Hlen | exact Hfifo].
Defined.


(** *** Signal quality *)

Lemma count_above_fin (q : Q) (w : list Q) :
  count_above (Fin q) (map Fin w) = exceeding q w.
Proof.
  unfold count_above, exceeding. induction w as [|x w IH]; [reflexivity|].
  cbn [map List.filter]. change (fgtb (fabs (Fin x)) (Fin q)) with (Qltb q (Qabs x)).
  destruct (Qltb q (Qabs x)); cbn [length]; now rewrite IH.
Qed.

Lemma np_diff_fin (w : list Q) : np_diff (map Fin w) = map Fin (deltas w).
Proof.
  induction w as [|x [|y w] IH]; [reflexivity | reflexivity |].
  change (np_diff (map Fin (x :: y :: w)))
    with (Fin (y - x) :: np_diff (map Fin (y :: w))).
  rewrite IH. reflexivity.
Qed.

Lemma deltas_length (w : list Q) : length (deltas w) = (length w - 1)%nat.
Proof.
  induction w as [|x [|y w] IH]; [reflexivity | reflexivity |].
  change (deltas (x :: y :: w)) with ((y - x) :: deltas (y :: w)).
  cbn [length] in *. lia.
Qed.

Lemma exceeding_le (q : Q) (w : list Q) : (exceeding q w <= length w)%nat.
Proof. apply List.filter_length_le. Qed.

Lemma fraction_bounds (k n : nat) :
  (0 < n)%nat -> (k <= n)%nat -> 0 <= fraction k n <= 1.
Proof.
  intros Hn Hk. unfold fraction.
  assert (Hn' : 0 < inject_Z (Z.of_nat n)).
  { change 0 with (inject_Z 0). rewrite <- Zlt_Qlt. lia. }
  assert (Hk' : 0 <= inject_Z (Z.of_nat k)).
  { change 0 with (inject_Z 0). rewrite <- Zle_Qle. lia. }
  assert (Hkn : inject_Z (Z.of_nat k) <= inject_Z (Z.of_nat n)).
  { rewrite <- Zle_Qle. lia. }
  revert Hn' Hk' Hkn.
  generalize (inject_Z (Z.of_nat k)) (inject_Z (Z.of_nat n)). intros a b Hb Ha Hab.
  split.
  - apply Qle_shift_div_l; [exact Hb|]. lra.
  - apply Qle_shift_div_r; [exact Hb|]. lra.
Qed.

Lemma of_nat_nonzero (n : nat) :
  (0 < n)%nat -> Qeq_bool (inject_Z (Z.of_nat n)) 0 = false.
Proof.
  intros H. apply not_true_iff_false. intros E. apply Qeq_bool_iff in E.
  change 0 with (inject_Z 0) in E. apply (proj1 (inject_Z_injective _ _)) in E. lia.
Qed.

(** The shape shared by the two sub-scores: [max(1.0 - k / n, 0.0)]. *)
Lemma quality_of_counts (k n : nat) :
  (0 < n)%nat -> (k <= n)%nat ->
  py_max (fsub (Fin 1) (fdiv (of_nat k) (of_nat n))) (Fin 0)
  = Fin (1 - fraction k n).
Proof.
  intros Hn Hk. unfold of_nat, fdiv. rewrite (of_nat_nonzero n Hn).
  cbn [fsub lift2]. rewrite py_max_fin. unfold qmax.
  replace (Qltb (1 - inject_Z (Z.of_nat k) / inject_Z (Z.of_nat n)) 0) with false;
    [reflexivity|].
  symmetry. apply Qltb_ge. pose proof (fraction_bounds k n Hn Hk) as [_ H].
  unfold fraction in H. lra.
Qed.

Lemma amplitude_quality_fin (w : list Q) :
  (0 < length w)%nat ->
  _check_amplitude_artifacts (map Fin w)
  = Fin (1 - fraction (exceeding 200 w) (length w)).
Proof.
  intros H. unfold _check_amplitude_artifacts, amplitude_threshold.
  rewrite count_above_fin, length_map.
  apply quality_of_counts; [exact H | apply exceeding_le].
Qed.

Lemma gradient_quality_fin (w : list Q) :
  (1 < length w)%nat ->
  _check_gradient_artifacts (map Fin w)
  = Fin (1 - fraction (exceeding 50 (deltas w)) (length (deltas w))).
Proof.
  intros H. unfold _check_gradient_artifacts, gradient_threshold.
  rewrite np_diff_fin, count_above_fin, length_map.
  apply quality_of_counts; [rewrite deltas_length; lia | apply exceeding_le].
Qed.

Lemma detect_quality (signal : list pyfloat) :
  snd (_detect_artifacts signal)
  = fdiv (fadd (_check_amplitude_artifacts signal) (_check_gradient_artifacts signal))
         (Fin 2).
Proof. reflexivity. Qed.

(** C9.  On a window of at least two finite samples the amplitude quality
    is 1 minus the fraction of samples beyond 200 in absolute value, the
    gradient quality is 1 minus the fraction of sample-to-sample deltas
    beyond 50, both lie in [0,1], and the quality score returned by
    [_detect_artifacts] is their mean (which the clamp at 0 leaves as it
    is), computed on the window it was given, corrected or not.  Half of the
    samples beyond the amplitude threshold give amplitude quality 0.5, and
    no delta beyond the gradient threshold gives gradient quality 1.0. *)
Theorem quality_scores (w : list Q) :
  (2 <= length w)%nat ->
  let amplitude := 1 - fraction (exceeding 200 w) (length w) in
  let gradient := 1 - fraction (exceeding 50 (deltas w)) (length (deltas w)) in
  _check_amplitude_artifacts (map Fin w) =f Fin amplitude
  /\ _check_gradient_artifacts (map Fin w) =f Fin gradient
  /\ snd (_detect_artifacts (map Fin w)) =f Fin (Qmax ((amplitude + gradient) / 2) 0)
  /\ snd (_detect_artifacts (map Fin w)) =f Fin ((amplitude + gradient) / 2)
  /\ (0 <= amplitude <= 1 /\ 0 <= gradient <= 1)
  /\ ((2 * exceeding 200 w = length w)%nat -> amplitude == 1#2)
  /\ (exceeding 50 (deltas w) = 0%nat -> gradient == 1).
Proof.
  intros H amplitude gradient.
  assert (Ha : 0 <= fraction (exceeding 200 w) (length w) <= 1)
    by (apply fraction_bounds; [lia | apply exceeding_le]).
  assert (Hg : 0 <= fraction (exceeding 50 (deltas w)) (length (deltas w)) <= 1)
    by (apply fraction_bounds; [rewrite deltas_length; lia | apply exceeding_le]).
  rewrite detect_quality, amplitude_quality_fin, gradient_quality_fin by lia.
  fold amplitude gradient. cbn [fadd fdiv lift2 feq].
  replace (Qeq_bool 2 0) with false by reflexivity. cbn [feq].
  split; [apply Qeq_refl|]. split; [apply Qeq_refl|]. split.
  { rewrite Q.max_l; [apply Qeq_refl|]. subst amplitude gradient.
    apply Qle_shift_div_l; lra. }
  split; [apply Qeq_refl|]. split; [subst amplitude gradient; lra|]. split.
  - intros E. subst amplitude. unfold fraction. rewrite <- E.
    rewrite Nat2Z.inj_mul, inject_Z_mult. change (inject_Z (Z.of_nat 2)) with 2.
    assert (Hk : ~ inject_Z (Z.of_nat (exceeding 200 w)) == 0).
    { change 0 with (inject_Z 0). intros E'.
      apply (proj1 (inject_Z_injective _ _)) in E'. lia. }
    field. exact Hk.
  - intros E. subst gradient. rewrite E. unfold fraction.
    change (inject_Z (Z.of_nat 0)) with 0. unfold Qdiv. rewrite Qmult_0_l. reflexivity.
Qed.


Lemma quality_scores_witness :
  (2 <= length plateau_window)%nat
  /\ _check_amplitude_artifacts (map Fin plateau_window)
       =f Fin (1 - fraction (exceeding 200 plateau_window) (length plateau_window))
  /\ 1 - fraction (exceeding 200 plateau_window) (length plateau_window) == 1#2
  /\ 1 - fraction (exceeding 50 (deltas plateau_window))
           (length (deltas plateau_window)) == 1.
Proof.
  assert (H : (2 <= length plateau_window)%nat) by (cbn; lia).
  split; [exact H|].
  pose proof (quality_scores plateau_window H) as (Ha & _ & _ & _ & _ & Hhalf & Hnone).
  split; [exact Ha|]. split.
  - apply Hhalf. vm_compute. reflexivity.
  - apply Hnone. vm_compute. reflexivity.
Defined.

(** The score is the one of the window that came in: the spikes of
    [0, 300, 0, 300] are interpolated away, the returned window would score
    1.0, and the score returned with it is 0.25. *)
Lemma quality_is_of_uncorrected_signal :
  Forall2 feq (fst (_detect_artifacts (map Fin spiky_window))) (map Fin [0; 0; 0; 0])
  /\ snd (_detect_artifacts (map Fin spiky_window)) =f Fin (1#4)
  /\ snd (_detect_artifacts (fst (_detect_artifacts (map Fin spiky_window)))) =f Fin 1.
Proof.
  split; [|split]; vm_compute; repeat constructor.
Qed.

End ProcessorFacts.

(** ** The broadcaster *)

Module ManagerFacts.
Import Manager.

Lemma list_remove_absent (x : WebSocket) (l : list WebSocket) :
  existsb (Nat.eqb x) l = false -> list_remove x l = l.
Proof.
  induction l as [|y l IH]; [reflexivity|].
  cbn [existsb list_remove]. destruct (Nat.eqb x y); [discriminate|].
  intros H. now rewrite IH.
Qed.

Lemma disconnect_manager_eq (ws : WebSocket) (m : ConnectionManager) :
  disconnect_manager ws m
  = {| active_connections := list_remove ws (active_connections m);
       client_data := delete ws (client_data m) |}.
Proof.
  unfold disconnect_manager. f_equal.
  - destruct (existsb (Nat.eqb ws) (active_connections m)) eqn:E; [reflexivity|].
    symmetry. now apply list_remove_absent.
  - destruct (client_data m !! ws) eqn:E; [reflexivity|].
    symmetry. now apply delete_id.
Qed.

(** The manager after the clean-up loop of [broadcast]. *)
Lemma handle_connection_error_spec (net : network) (ws : WebSocket) (s : state) :
  fst (_handle_connection_error net ws s) = Return tt
  /\ manager (snd (_handle_connection_error net ws s))
     = disconnect_manager ws (manager s)
  /\ wire (snd (_handle_connection_error net ws s)) = wire s.
Proof.
  unfold _handle_connection_error, try_finally, try_except, close, ret, disconnect.
  destruct (close_raises net ws); repeat split.
Qed.

Lemma clean_up_spec (net : network) (clients : list WebSocket) (s : state) :
  fst (clean_up net clients s) = Return tt
  /\ manager (snd (clean_up net clients s))
     = fold_left (fun m ws => disconnect_manager ws m) clients (manager s)
  /\ wire (snd (clean_up net clients s)) = wire s.
Proof.
  revert s. induction clients as [|c rest IH]; intros s; [repeat split|].
  cbn [clean_up fold_left]. unfold bind.
  destruct (handle_connection_error_spec net c s) as (Hr & Hm & Hw).
  destruct (_handle_connection_error net c s) as [[[]|] s']; [|discriminate Hr].
  cbn [snd] in Hm, Hw. rewrite <- Hm, <- Hw. apply IH.
Qed.

Lemma send_to_all_spec (net : network) (msg : message)
    (connections acc : list WebSocket) (s : state) :
  send_to_all net msg connections acc s
  = (Return (acc ++ List.filter (send_raises net) connections),
     {| manager := manager s;
        wire := wire s
                ++ map (fun ws => (ws, msg))
                       (List.filter (fun ws => negb (send_raises net ws)) connections);
        closed := closed s |}).
Proof.
  revert acc s. induction connections as [|c rest IH]; intros acc s.
  - cbn. rewrite !app_nil_r. now destruct s.
  - cbn [send_to_all List.filter]. unfold bind, try_except, send_text, ret.
    destruct (send_raises net c); cbn [negb].
    + rewrite IH, <- app_assoc. reflexivity.
    + rewrite IH. cbn [manager wire closed map]. rewrite <- app_assoc. reflexivity.
Qed.

Lemma fold_disconnect (clients : list WebSocket) (m : ConnectionManager) :
  fold_left (fun m ws => disconnect_manager ws m) clients m
  = {| active_connections :=
         fold_left (fun l ws => list_remove ws l) clients (active_connections m);
       client_data := fold_left (fun d ws => delete ws d) clients (client_data m) |}.
Proof.
  revert m. induction clients as [|c rest IH]; intros m; [now destruct m|].
  cbn [fold_left]. rewrite IH, disconnect_manager_eq. reflexivity.
Qed.

Lemma fold_remove_keeps_head (a : WebSocket) (clients l : list WebSocket) :
  ~ In a clients ->
  fold_left (fun l ws => list_remove ws l) clients (a :: l)
  = a :: fold_left (fun l ws => list_remove ws l) clients l.
Proof.
  revert l. induction clients as [|c rest IH]; intros l H; [reflexivity|].
  cbn [fold_left list_remove].
  destruct (Nat.eqb_spec c a) as [->|Hne]; [exfalso; apply H; now left|].
  apply IH. intros Hin. apply H. now right.
Qed.

(** Removing the failed sockets one by one leaves the others, in order. *)
Lemma fold_remove_failed (fails : WebSocket -> bool) (l : list WebSocket) :
  fold_left (fun l ws => list_remove ws l) (List.filter fails l) l
  = List.filter (fun ws => negb (fails ws)) l.
Proof.
  induction l as [|a l IH]; [reflexivity|].
  cbn [List.filter]. destruct (fails a) eqn:E; cbn [negb].
  - cbn [fold_left list_remove]. rewrite Nat.eqb_refl. exact IH.
  - rewrite fold_remove_keeps_head, IH; [reflexivity|].
    intros Hin. apply List.filter_In in Hin as [_ Hf]. congruence.
Qed.

(** [broadcast] returns, keeps the subscribers whose send went through and
    delivers the message to each of them, in order. *)
Lemma broadcast_spec (net : network) (msg : message) (s : state) :
  fst (broadcast net msg s) = Return tt
  /\ active_connections (manager (snd (broadcast net msg s)))
     = List.filter (fun ws => negb (send_raises net ws))
                   (active_connections (manager s))
  /\ client_data (manager (snd (broadcast net msg s)))
     = fold_left (fun d ws => delete ws d)
                 (List.filter (send_raises net) (active_connections (manager s)))
                 (client_data (manager s))
  /\ wire (snd (broadcast net msg s))
     = wire s ++ map (fun ws => (ws, msg))
                     (List.filter (fun ws => negb (send_raises net ws))
                                  (active_connections (manager s))).
Proof.
  unfold broadcast. destruct (active_connections (manager s)) as [|c rest] eqn:E.
  - cbn. rewrite E, app_nil_r. repeat split.
  - unfold bind. rewrite send_to_all_spec. cbn [app].
    match goal with
    | |- context [clean_up net ?cs ?s'] =>
        destruct (clean_up_spec net cs s') as (Hr & Hm & Hw)
    end.
    rewrite Hr, Hm, Hw, fold_disconnect.
    cbn [manager wire active_connections client_data].
    rewrite E, fold_remove_failed. repeat split.
Qed.

Lemma broadcast_returns (net : network) (msg : message) (s : state) :
  fst (broadcast net msg s) = Return tt.
Proof. apply broadcast_spec. Qed.


Lemma filter_all (f : WebSocket -> bool) (l : list WebSocket) :
  (forall c, In c l -> f c = true) -> List.filter f l = l.
Proof.
  induction l as [|a l IH]; intros H; [reflexivity|].
  cbn [List.filter]. rewrite (H a) by now left.
  f_equal. apply IH. intros c Hc. apply H. now right.
Qed.


Lemma filter_is_not (w : WebSocket) (l : list WebSocket) :
  List.NoDup l ->
  List.filter (fun ws => negb (Nat.eqb ws w)) l = list_remove w l.
Proof.
  induction 1 as [|a l Ha Hnd IH]; [reflexivity|].
  cbn [List.filter list_remove]. rewrite (Nat.eqb_sym w a).
  destruct (Nat.eqb_spec a w) as [->|]; cbn [negb].
  - apply filter_all. intros c Hc.
    destruct (Nat.eqb_spec c w) as [->|]; [contradiction | reflexivity].
  - now rewrite IH.
Qed.





Lemma filter_filter (f : WebSocket -> bool) (l : list WebSocket) :
  List.filter f (List.filter f l) = List.filter f l.
Proof.
  apply filter_all. intros c Hc. apply List.filter_In in Hc as [_ Hc]. exact Hc.
Qed.

(** [broadcast] with its serialisation step: it raises exactly when there
    is a subscriber and the message is not serialisable, and then nothing
    was sent and nobody was dropped. *)
Lemma broadcast_json_spec (serialisable : bool) (net : network) (msg : message)
    (s : state) :
  let active := active_connections (manager s) in
  let listeners := List.filter (fun ws => negb (send_raises net ws)) active in
  fst (broadcast_json serialisable net msg s)
  = (if match active with [] => false | _ :: _ => negb serialisable end
     then Raise else Return tt)
  /\ active_connections (manager (snd (broadcast_json serialisable net msg s)))
     = (if serialisable then listeners else active)
  /\ wire (snd (broadcast_json serialisable net msg s))
     = wire s ++ (if serialisable then map (fun ws => (ws, msg)) listeners else []).
Proof.
  cbv zeta. unfold broadcast_json.
  destruct (active_connections (manager s)) as [|c rest] eqn:E.
  - cbn [fst snd]. rewrite E. destruct serialisable; cbn; now rewrite app_nil_r.
  - destruct serialisable; cbn [negb fst snd].
    + destruct (broadcast_spec net msg s) as (Hr & Ha & _ & Hw).
      rewrite E in Ha, Hw. now rewrite Hr, Ha, Hw.
    + now rewrite E, app_nil_r.
Qed.

End ManagerFacts.

(** ** The sampling loop and the threshold *)

Module MainFacts.
Import Main.

(** No client message changes the globals of main.py. *)
Lemma on_client_message_keeps_globals (net : Manager.network) (now : Q)
    (ws : Manager.WebSocket) (msg : Manager.client_message) (s : server) :
  state_of (on_client_message net now ws msg s) = state_of s.
Proof. reflexivity. Qed.

(** What the handler does do: the validated value goes out to every
    subscriber whose send goes through, and it lies in [0,1]. *)
Lemma threshold_update_is_broadcast (net : Manager.network)
    (ws : Manager.WebSocket) (v : Q) (m : Manager.state) :
  Manager.wire (snd (Manager._handle_threshold_update net ws (Some (Fin v)) m))
  = Manager.wire m
    ++ map (fun c => (c, Manager.threshold_updated (Manager.validate_threshold (Fin v))))
           (List.filter (fun c => negb (Manager.send_raises net c))
                        (Manager.active_connections (Manager.manager m)))
  /\ in_unit (Manager.validate_threshold (Fin v)) = true.
Proof.
  split.
  - unfold Manager._handle_threshold_update. apply ManagerFacts.broadcast_spec.
  - unfold Manager.validate_threshold. rewrite py_min_fin, py_max_fin.
    apply in_unit_fin. pose proof (qmin_bounds 1 v) as [H1 _].
    pose proof (qmax_bounds 0 (qmin 1 v)) as [H0 _].
    split; [exact H0|]. unfold qmax. destruct (Qltb 0 (qmin 1 v)); lra.
Qed.

(** C3.  A [set_threshold] message with value 0.5, received while the
    threshold is 0.7: the handler announces 0.5 to both subscribers and the
    threshold the sampling loop reads is still 0.7, whereas POST /threshold
    with the same value sets it to 0.5. *)
Theorem set_threshold_message_leaves_threshold :
  let s := on_client_message (Manager.failing []) 0 1%nat
             (Manager.set_threshold (Some (Fin (1#2)))) served in
  confusion_threshold (state_of served) = Fin (7#10)
  /\ Manager.wire (manager s)
     = [(1%nat, Manager.threshold_updated (Fin (1#2)));
        (2%nat, Manager.threshold_updated (Fin (1#2)))]
  /\ confusion_threshold (state_of s) = Fin (7#10)
  /\ confusion_threshold (state_of (update_threshold (Fin (1#2)) served)) = Fin (1#2).
Proof. cbv zeta. repeat split. Qed.


(** The manager after the advisory step of an iteration: the help message
    went to the subscribers whose send goes through when the pipeline ran
    and its result was serialisable, and those are then the subscribers
    left; otherwise nothing was sent and nobody was dropped. *)
Lemma advisory_step_spec (net : Manager.network) (help_is_json exceeded : bool)
    (level : pyfloat) (m : Manager.state) :
  let active := Manager.active_connections (Manager.manager m) in
  let listeners :=
    List.filter (fun c => negb (Manager.send_raises net c)) active in
  let m1 :=
    fst (if exceeded
         then handle_confusion_threshold_body net help_is_json level m
         else (m, [])) in
  Manager.active_connections (Manager.manager m1)
  = (if exceeded && help_is_json then listeners else active)
  /\ Manager.wire m1
     = Manager.wire m
       ++ (if exceeded && help_is_json
           then map (fun c => (c, Manager.help_suggestion level)) listeners
           else []).
Proof.
  cbv zeta. destruct exceeded; cbn [andb fst].
  - unfold handle_confusion_threshold_body. cbn [fst].
    destruct (ManagerFacts.broadcast_json_spec help_is_json net
                (Manager.help_suggestion level) m) as (_ & Ha & Hw).
    split; assumption.
  - now rewrite app_nil_r.
Qed.

(** An iteration that gets data, in full: the globals, the detector, the
    awaited steps, and what the manager sent and kept.  The update raises
    in [json.dumps] exactly when the level is a numpy scalar and a
    subscriber is left after the advisory step. *)
Lemma tick_with_data (inp : tick_input) (s : server)
    (features : Detector.Features) (variation : pyfloat) :
  eeg_data inp = Some (features, variation) ->
  bci_connected (state_of s) || connect_result inp = true ->
  let scored :=
    Detector.analyze_confusion (confusion_detector s) features variation in
  let level := snd scored in
  let numpy_level :=
    Detector.level_is_numpy (confusion_detector s) features variation in
  let exceeded := fgtb level (confusion_threshold (state_of s)) in
  let help := Manager.help_suggestion level in
  let update := Manager.confusion_update level exceeded in
  let active := Manager.active_connections (Manager.manager (manager s)) in
  let listeners :=
    List.filter (fun c => negb (Manager.send_raises (net inp) c)) active in
  let remaining := if exceeded && help_is_json inp then listeners else active in
  let raises := match remaining with [] => false | _ :: _ => numpy_level end in
  let out := bci_tick inp s in
  state_of (fst out)
  = {| current_confusion_level := level;
       confusion_threshold := confusion_threshold (state_of s);
       bci_connected := negb raises |}
  /\ confusion_detector (fst out) = fst scored
  /\ snd out
     = (if bci_connected (state_of s) then [] else [await_connect])
       ++ [await_get_eeg_data; await_analyze_confusion]
       ++ (if exceeded
           then [await_capture_screen; await_analyze_screenshot;
                 await_generate_help; await_broadcast help]
           else [])
       ++ [await_broadcast update; await_sleep (if raises then 1000 else 100)]
  /\ Manager.wire (manager (fst out))
     = Manager.wire (manager s)
       ++ (if exceeded && help_is_json inp
           then map (fun c => (c, help)) listeners else [])
       ++ (if numpy_level then [] else map (fun c => (c, update)) listeners)
  /\ Manager.active_connections (Manager.manager (manager (fst out)))
     = (if numpy_level then remaining else listeners).
Proof.
  intros Heeg Hconn. cbv zeta.
  set (level :=
    snd (Detector.analyze_confusion (confusion_detector s) features variation)).
  set (exceeded := fgtb level (confusion_threshold (state_of s))).
  destruct (advisory_step_spec (net inp) (help_is_json inp) exceeded level
              (manager s)) as [Ha1 Hw1].
  cbv zeta in Ha1, Hw1.
  set (m1 := fst (if exceeded
                  then handle_confusion_threshold_body (net inp) (help_is_json inp)
                         level (manager s)
                  else (manager s, []))) in *.
  destruct (ManagerFacts.broadcast_json_spec
              (negb (Detector.level_is_numpy (confusion_detector s) features variation))
              (net inp) (Manager.confusion_update level exceeded) m1)
    as (Hr & Ha & Hw).
  cbv zeta in Hr, Ha, Hw. rewrite Ha1, Hw1 in *. rewrite negb_involutive in Hr.
  assert (Hl :
    List.filter (fun c => negb (Manager.send_raises (net inp) c))
      (if exceeded && help_is_json inp
       then List.filter (fun c => negb (Manager.send_raises (net inp) c))
              (Manager.active_connections (Manager.manager (manager s)))
       else Manager.active_connections (Manager.manager (manager s)))
    = List.filter (fun c => negb (Manager.send_raises (net inp) c))
        (Manager.active_connections (Manager.manager (manager s)))).
  { destruct (exceeded && help_is_json inp);
      [apply ManagerFacts.filter_filter | reflexivity]. }
  rewrite Hl in Ha, Hw. clear Hl.
  assert (Hout :
    bci_tick inp s
    = let '(o, m') :=
        Manager.broadcast_json
          (negb (Detector.level_is_numpy (confusion_detector s) features variation))
          (net inp) (Manager.confusion_update level exceeded) m1 in
      let raised := match o with Manager.Return _ => false | Manager.Raise => true end in
      ({| state_of := {| current_confusion_level := level;
                         confusion_threshold := confusion_threshold (state_of s);
                         bci_connected := negb raised |};
          confusion_detector :=
            fst (Detector.analyze_confusion (confusion_detector s) features variation);
          manager := m' |},
       (if bci_connected (state_of s) then [] else [await_connect])
       ++ [await_get_eeg_data; await_analyze_confusion]
       ++ (if exceeded
           then [await_capture_screen; await_analyze_screenshot;
                 await_generate_help; await_broadcast (Manager.help_suggestion level)]
           else [])
       ++ [await_broadcast (Manager.confusion_update level exceeded);
           await_sleep (if raised then 1000 else 100)])).
  { subst m1 exceeded level. unfold bci_tick, handle_confusion_threshold_body.
    rewrite Heeg.
    destruct (bci_connected (state_of s)); cbn [negb orb] in *;
      [|rewrite Hconn];
      destruct (Detector.analyze_confusion (confusion_detector s) features variation)
        as [d l];
      cbn [fst snd];
      destruct (fgtb l (confusion_threshold (state_of s))); cbn [fst snd];
      match goal with
      | |- context [Manager.broadcast_json ?j ?n ?m ?st] =>
          destruct (Manager.broadcast_json j n m st) as [[[]|] m']
      end; reflexivity. }
  rewrite Hout. clear Hout.
  destruct (Manager.broadcast_json
              (negb (Detector.level_is_numpy (confusion_detector s) features variation))
              (net inp) (Manager.confusion_update level exceeded) m1)
    as [o m'].
  cbn [fst snd] in *.
  assert (Hraised :
    match o with Manager.Return _ => false | Manager.Raise => true end
    = match (if exceeded && help_is_json inp
             then List.filter (fun c => negb (Manager.send_raises (net inp) c))
                    (Manager.active_connections (Manager.manager (manager s)))
             else Manager.active_connections (Manager.manager (manager s)))
      with
      | [] => false
      | _ :: _ => Detector.level_is_numpy (confusion_detector s) features variation
      end).
  { rewrite Hr.
    destruct (if exceeded && help_is_json inp
              then List.filter (fun c => negb (Manager.send_raises (net inp) c))
                     (Manager.active_connections (Manager.manager (manager s)))
              else Manager.active_connections (Manager.manager (manager s)));
      [reflexivity|].
    destruct (Detector.level_is_numpy (confusion_detector s) features variation);
      reflexivity. }
  cbv zeta. cbn [fst snd state_of confusion_detector manager].
  rewrite Hraised, Ha, Hw.
  split; [reflexivity|]. split; [reflexivity|]. split; [reflexivity|].
  destruct (Detector.level_is_numpy (confusion_detector s) features variation);
    cbn [negb]; rewrite <- ?app_assoc; split; reflexivity.
Qed.




End MainFacts.

(** * Further properties *)

(** ** The scorer, its features and its trend *)

Module DetectorExtras.
Import Detector DetectorFacts.

(** *** Sessions *)

Lemma analyze_baselines (d : ConfusionDetector) (f : Features) (v : pyfloat) :
  let d' := fst (analyze_confusion d f v) in
  (baseline_theta d' = baseline_theta d \/ baseline_theta d' = Fin 1)
  /\ (baseline_alpha d' = baseline_alpha d \/ baseline_alpha d' = Fin 1)
  /\ (baseline_beta d' = baseline_beta d \/ baseline_beta d' = Fin 1).
Proof.
  cbv zeta. rewrite analyze_unfold.
  unfold record_score, _calculate_confusion_score, _establish_baseline.
  cbn [fst baseline_theta baseline_alpha baseline_beta].
  destruct (negb (baseline_established d) && (10 <? length (confusion_history d))%nat);
    [destruct (10 <? length (confusion_history d))%nat|]; cbn; tauto.
Qed.

Lemma unit_divisors_step (d : ConfusionDetector) (f : Features) (v : pyfloat) :
  unit_divisors d -> unit_divisors (fst (analyze_confusion d f v)).
Proof.
  intros (Ht & Ha & Hb). unfold unit_divisors.
  destruct (analyze_baselines d f v) as ([-> | ->] & [-> | ->] & [-> | ->]);
    repeat split; assumption || reflexivity.
Qed.

Lemma unit_divisors_run (samples : list (Features * pyfloat)) :
  unit_divisors (run init samples).
Proof.
  induction samples as [|s l IH] using rev_ind; [repeat split|].
  rewrite run_snoc. now apply unit_divisors_step.
Qed.

Lemma score_with_unit_divisors (d : ConfusionDetector) (f : Features) (v : pyfloat) :
  unit_divisors d ->
  snd (_calculate_confusion_score d f v)
  = snd (_calculate_confusion_score (calibrated []) f v).
Proof.
  intros (Ht & Ha & Hb).
  unfold _calculate_confusion_score, _establish_baseline.
  destruct (negb (baseline_established d) && (10 <? length (confusion_history d))%nat);
    [destruct (10 <? length (confusion_history d))%nat|];
    cbn [snd baseline_theta baseline_alpha baseline_beta calibrated
         baseline_established negb andb];
    rewrite ?Ht, ?Ha, ?Hb; reflexivity.
Qed.

Lemma calibration_leaves_score_aux (samples : list (Features * pyfloat))
    (f : Features) (v : pyfloat) :
  snd (_calculate_confusion_score (run init samples) f v)
  = snd (_calculate_confusion_score (calibrated []) f v).
Proof. apply score_with_unit_divisors, unit_divisors_run. Qed.

(** X1.  Calibration does not change the score: in every state a session can
    reach, before or after the baseline is established, the raw score of any
    features is the one a calibrated detector computes, because a baseline
    of 0.0 is replaced by the divisor 1.0. *)
Theorem calibration_leaves_score (samples : list (Features * pyfloat))
    (f : Features) (v : pyfloat) (h : list pyfloat) :
  snd (_calculate_confusion_score (run init samples) f v)
  = snd (_calculate_confusion_score (calibrated h) f v).
Proof.
  rewrite calibration_leaves_score_aux.
  symmetry. apply score_with_unit_divisors. repeat split.
Qed.

(** X2.  The history of a session never exceeds the window: after [n] samples a
    fresh detector holds [min n 50] scores, and one more call on any detector
    adds one score unless 50 or more are stored already. *)
Theorem history_is_windowed :
  (forall samples,
     length (confusion_history (run init samples))
     = Nat.min (length samples) window_size)
  /\ (forall d f v,
        length (confusion_history (fst (analyze_confusion d f v)))
        = if (window_size <=? length (confusion_history d))%nat
          then length (confusion_history d)
          else S (length (confusion_history d))).
Proof.
  split.
  - intros samples. apply run_init_shape.
  - apply analyze_history_length.
Qed.

Lemma numbers_last (l : list pyfloat) :
  numbers l = true -> exists x, List.last l (Fin 0) = Fin x.
Proof.
  induction l as [|a l IH]; intros H; [now exists 0|].
  cbn [numbers forallb] in H. apply andb_true_iff in H as [Ha Hl].
  destruct l as [|b l].
  - destruct a; [now eexists | discriminate Ha].
  - apply IH. exact Hl.
Qed.

Lemma numbers_smooth (h : list pyfloat) (r : Q) :
  numbers h = true -> exists s, _smooth_confusion_level h (Fin r) = Fin s.
Proof.
  intros H. destruct h as [|a h]; [now exists r|].
  destruct (numbers_last _ H) as [x Hx].
  unfold _smooth_confusion_level. rewrite Hx. now eexists.
Qed.

Lemma numbers_store (h : list pyfloat) (s : Q) :
  numbers h = true -> numbers (store h (Fin s)) = true.
Proof.
  intros H. unfold store.
  assert (Happ : numbers (h ++ [Fin s]) = true).
  { unfold numbers in *. rewrite forallb_app, H. reflexivity. }
  destruct (window_size <? length (h ++ [Fin s]))%nat; [|exact Happ].
  destruct (h ++ [Fin s]) as [|a t]; [reflexivity|].
  cbn [numbers forallb] in Happ. apply andb_true_iff in Happ as [_ Ht]. exact Ht.
Qed.

Lemma finite_score (d : ConfusionDetector) (s : Q * Q * Q * Q * Q) :
  unit_divisors d ->
  exists r, snd (_calculate_confusion_score d (fst (finite_sample s))
                   (snd (finite_sample s))) = Fin r.
Proof.
  intros H. destruct s as [[[[theta alpha] beta] load] v].
  rewrite (score_with_unit_divisors _ _ _ H). cbn [finite_sample fst snd].
  rewrite calculate_calibrated. now eexists.
Qed.

Lemma finite_step (d : ConfusionDetector) (s : Q * Q * Q * Q * Q) :
  unit_divisors d -> numbers (confusion_history d) = true ->
  numbers (confusion_history
             (fst (analyze_confusion d (fst (finite_sample s)) (snd (finite_sample s)))))
    = true
  /\ in_unit (snd (analyze_confusion d (fst (finite_sample s)) (snd (finite_sample s))))
     = true.
Proof.
  intros Hu Hn. destruct (finite_score d s Hu) as [r Hr].
  destruct (numbers_smooth _ r Hn) as [x Hx].
  rewrite analyze_result, analyze_unfold. unfold record_score.
  cbn [fst confusion_history]. rewrite calculate_history, Hr, Hx.
  split; [now apply numbers_store | apply clamp01_fin].
Qed.

Lemma finite_run (samples : list (Q * Q * Q * Q * Q)) :
  numbers (confusion_history (run init (map finite_sample samples))) = true.
Proof.
  induction samples as [|s l IH] using rev_ind; [reflexivity|].
  rewrite map_app. cbn [map]. rewrite run_snoc.
  apply finite_step; [apply unit_divisors_run | exact IH].
Qed.

(** X3.  On a session of finite samples the clamp holds throughout: every
    stored score is a number, and the level returned for the next finite
    sample lies in [0.0, 1.0]. *)
Theorem finite_session_is_clamped (samples : list (Q * Q * Q * Q * Q))
    (next : Q * Q * Q * Q * Q) :
  let d := run init (map finite_sample samples) in
  forallb (fun x => negb (is_nan x)) (confusion_history d) = true
  /\ in_unit (snd (analyze_confusion d (fst (finite_sample next))
                     (snd (finite_sample next)))) = true.
Proof.
  cbv zeta. split; [apply finite_run|].
  apply finite_step; [apply unit_divisors_run | apply finite_run].
Qed.

Lemma nan_step (d : ConfusionDetector) (h : list pyfloat) (f : Features)
    (v : pyfloat) :
  confusion_history d = h ++ [NaN] ->
  snd (analyze_confusion d f v) = NaN
  /\ exists h', confusion_history (fst (analyze_confusion d f v)) = h' ++ [NaN].
Proof.
  intros H.
  assert (Hs : forall x, _smooth_confusion_level (h ++ [NaN]) x = NaN).
  { intros x. unfold _smooth_confusion_level. rewrite last_last.
    destruct (h ++ [NaN]) eqn:E; [destruct h; discriminate E|].
    destruct x; reflexivity. }
  rewrite analyze_result, analyze_unfold. unfold record_score.
  cbn [fst confusion_history]. rewrite calculate_history, H, Hs.
  split; [reflexivity | apply store_snoc].
Qed.

Lemma nan_level_is_numpy (d : ConfusionDetector) (h : list pyfloat)
    (f : Features) (v : pyfloat) :
  confusion_history d = h ++ [NaN] ->
  level_is_numpy d f v = true.
Proof.
  intros H. unfold level_is_numpy.
  pose proof (calculate_history d f v) as Hc.
  destruct (_calculate_confusion_score d f v) as [d' x]. cbn [fst] in Hc.
  rewrite Hc, H. unfold _smooth_confusion_level. rewrite last_last.
  destruct (h ++ [NaN]) eqn:E; [destruct h; discriminate E|].
  destruct x; reflexivity.
Qed.

Lemma nan_run (samples : list (Features * pyfloat)) (d : ConfusionDetector)
    (h : list pyfloat) :
  confusion_history d = h ++ [NaN] ->
  exists h', confusion_history (run d samples) = h' ++ [NaN].
Proof.
  revert d h. induction samples as [|s l IH]; intros d h H; [now exists h|].
  rewrite run_cons. destruct (nan_step d h (fst s) (snd s) H) as [_ [h' Hh']].
  now apply (IH _ h').
Qed.

(** X4.  A NaN score poisons the detector: once the last stored score is NaN,
    whatever samples follow, every later call returns NaN. *)
Theorem nan_is_absorbing (d : ConfusionDetector) (h : list pyfloat)
    (samples : list (Features * pyfloat)) (f : Features) (v : pyfloat) :
  snd (analyze_confusion (run (with_history d (h ++ [NaN])) samples) f v) = NaN.
Proof.
  destruct (nan_run samples (with_history d (h ++ [NaN])) h eq_refl) as [h' Hh'].
  now destruct (nan_step _ h' f v Hh') as [Hr _].
Qed.

(** X5.  With non-negative alpha power and cognitive load index the weighted
    sum lies in [0,1], so the raw score of a session state exceeds the unit
    interval by the clock term at most. *)
Theorem raw_score_range (samples : list (Features * pyfloat))
    (theta alpha beta gamma load_index v : Q) :
  0 <= alpha -> 0 <= load_index ->
  exists r,
    snd (_calculate_confusion_score (run init samples)
           (finite_features theta alpha beta gamma load_index) (Fin v)) = Fin r
    /\ v <= r <= 1 + v.
Proof.
  intros Ha Hl. rewrite (calibration_leaves_score_aux samples).
  rewrite calculate_calibrated. eexists. split; [reflexivity|]. cbn [snd].
  pose proof (qmax_bounds (qmin (theta / 1) 2 - 1) 0) as [_ T0].
  pose proof (qmax_bounds (1 - qmin (alpha / 1) 2) 0) as [_ A0].
  pose proof (qmax_bounds (qmin (beta / 1) 2 - 1) 0) as [_ B0].
  pose proof (qmin_bounds (theta / 1) 2) as [_ T2].
  pose proof (qmin_bounds (beta / 1) 2) as [_ B2].
  pose proof (qmin_bounds (load_index / 2) 1) as [_ L1].
  assert (T1 : qmax (qmin (theta / 1) 2 - 1) 0 <= 1)
    by (unfold qmax; destruct (Qltb _ _); lra).
  assert (B1 : qmax (qmin (beta / 1) 2 - 1) 0 <= 1)
    by (unfold qmax; destruct (Qltb _ _); lra).
  assert (Am : 0 <= qmin (alpha / 1) 2).
  { unfold qmin. destruct (Qltb 2 (alpha / 1)); [lra|].
    apply Qle_shift_div_l; lra. }
  assert (A1 : qmax (1 - qmin (alpha / 1) 2) 0 <= 1)
    by (unfold qmax; destruct (Qltb _ _); lra).
  assert (L0 : 0 <= qmin (load_index / 2) 1).
  { unfold qmin. destruct (Qltb 1 (load_index / 2)); [lra|].
    apply Qle_shift_div_l; lra. }
  lra.
Qed.

(** *** Trend *)

Lemma finite_values_fin (l : list Q) : finite_values (map Fin l) = Some l.
Proof. induction l as [|x l IH]; [reflexivity|]. cbn. now rewrite IH. Qed.

Lemma classify_proper (x y : Q) : x == y -> classify x = classify y.
Proof.
  intros E. unfold classify, Qltb.
  now rewrite (Qleb_comp _ _ E _ _ (Qeq_refl _)), (Qleb_comp _ _ (Qeq_refl _) _ _ E).
Qed.

Lemma slope_of_five (y0 y1 y2 y3 y4 : Q) :
  least_squares_slope [y0; y1; y2; y3; y4]
  == (2 * (y4 - y0) + (y3 - y1)) / 10.
Proof. unfold least_squares_slope, sum_Q. cbn. field. Qed.

Lemma recent_five (h : list Q) (y0 y1 y2 y3 y4 : Q) :
  let l := map Fin (h ++ [y0; y1; y2; y3; y4]) in
  drop (length l - 5) l = map Fin [y0; y1; y2; y3; y4].
Proof.
  cbv zeta. rewrite map_app, length_app, length_map.
  replace (length h + length (map Fin [y0; y1; y2; y3; y4]) - 5)%nat
    with (length (map Fin h)) by (rewrite length_map; cbn; lia).
  apply drop_app_length.
Qed.

Lemma trend_of_last_five_aux (d : ConfusionDetector) (h : list Q)
    (y0 y1 y2 y3 y4 : Q) :
  get_confusion_trend (with_history d (map Fin (h ++ [y0; y1; y2; y3; y4])))
  = Some (classify ((2 * (y4 - y0) + (y3 - y1)) / 10)).
Proof.
  unfold get_confusion_trend. cbn [with_history confusion_history].
  rewrite recent_five, finite_values_fin.
  replace (length (map Fin (h ++ [y0; y1; y2; y3; y4])) <? 5)%nat with false.
  - f_equal. apply classify_proper, slope_of_five.
  - symmetry. apply Nat.ltb_ge. rewrite length_map, length_app. cbn. lia.
Qed.

(** X6.  The trend is read off the last five scores only: for a history of
    numbers that ends in [y0 .. y4] it is decided by the least-squares
    slope [(2 (y4 - y0) + (y3 - y1)) / 10] against 0.02 and -0.02. *)
Theorem trend_of_last_five (d : ConfusionDetector) (h : list Q)
    (y0 y1 y2 y3 y4 : Q) :
  get_confusion_trend (with_history d (map Fin (h ++ [y0; y1; y2; y3; y4])))
  = Some (classify ((2 * (y4 - y0) + (y3 - y1)) / 10)).
Proof. apply trend_of_last_five_aux. Qed.

(** X7.  The answer is [insufficient_data] exactly when fewer than five scores
    are stored. *)
Theorem trend_insufficient_iff (d : ConfusionDetector) :
  get_confusion_trend d = Some insufficient_data
  <-> (length (confusion_history d) < 5)%nat.
Proof.
  unfold get_confusion_trend.
  destruct (length (confusion_history d) <? 5)%nat eqn:E.
  - apply Nat.ltb_lt in E. tauto.
  - apply Nat.ltb_ge in E. split; [|lia].
    destruct (finite_values _); [|discriminate].
    unfold classify. destruct (Qltb _ _); [discriminate|].
    destruct (Qltb _ _); discriminate.
Qed.

(** X8.  Five scores that rise by more than 0.02 from one to the next are
    classified as increasing, and five that fall by more than 0.02 as
    decreasing. *)
Theorem trend_of_monotone_scores (d : ConfusionDetector) (h : list Q)
    (y0 y1 y2 y3 y4 : Q) :
  (2#100 < y1 - y0 /\ 2#100 < y2 - y1 /\ 2#100 < y3 - y2 /\ 2#100 < y4 - y3 ->
   get_confusion_trend (with_history d (map Fin (h ++ [y0; y1; y2; y3; y4])))
   = Some increasing)
  /\ (2#100 < y0 - y1 /\ 2#100 < y1 - y2 /\ 2#100 < y2 - y3 /\ 2#100 < y3 - y4 ->
      get_confusion_trend (with_history d (map Fin (h ++ [y0; y1; y2; y3; y4])))
      = Some decreasing).
Proof.
  rewrite trend_of_last_five_aux. unfold classify. split; intros (H1 & H2 & H3 & H4).
  - replace (Qltb (2#100) ((2 * (y4 - y0) + (y3 - y1)) / 10)) with true; [reflexivity|].
    symmetry. apply Qltb_lt. apply Qlt_shift_div_l; lra.
  - replace (Qltb (2#100) ((2 * (y4 - y0) + (y3 - y1)) / 10)) with false.
    + replace (Qltb ((2 * (y4 - y0) + (y3 - y1)) / 10) (- (2#100))) with true;
        [reflexivity|].
      symmetry. apply Qltb_lt. apply Qlt_shift_div_r; lra.
    + symmetry. apply Qltb_ge. apply Qle_shift_div_r; lra.
Qed.

(** X9.  Five equal scores are stable, and so are five scores shifted by a
    common offset whenever the unshifted ones are: the trend does not depend
    on the level of the scores. *)
Theorem trend_ignores_level (d : ConfusionDetector) (h h' : list Q)
    (c y0 y1 y2 y3 y4 : Q) :
  get_confusion_trend (with_history d (map Fin (h ++ [c; c; c; c; c]))) = Some stable
  /\ get_confusion_trend
       (with_history d (map Fin (h' ++ [y0 + c; y1 + c; y2 + c; y3 + c; y4 + c])))
     = get_confusion_trend (with_history d (map Fin (h ++ [y0; y1; y2; y3; y4]))).
Proof.
  rewrite !trend_of_last_five_aux. split.
  - rewrite (classify_proper _ 0) by field. reflexivity.
  - f_equal. apply classify_proper. field.
Qed.

(** *** Feature extraction *)

Lemma sum_channels_frontal (chans : list (string * option band_powers))
    (acc : band_sums) :
  sum_channels chans acc
  = sum_channels (List.filter (fun c => is_frontal (fst c)) chans) acc.
Proof.
  revert acc. induction chans as [|[c sp] rest IH]; intros acc; [reflexivity|].
  cbn [sum_channels List.filter fst]. destruct (is_frontal c) eqn:E.
  - cbn [sum_channels]. rewrite E. destruct sp; [apply IH | reflexivity].
  - apply IH.
Qed.

(** X10.  Only the six frontal channels count: the features of a dict are those
    of its frontal channels, and a dict without frontal channels (the empty
    one included) gives the seven zeros. *)
Theorem extract_features_frontal_only (chans : list (string * option band_powers)) :
  _extract_features chans
  = _extract_features (List.filter (fun c => is_frontal (fst c)) chans)
  /\ _extract_features (List.filter (fun c => negb (is_frontal (fst c))) chans)
     = all_zero.
Proof.
  split.
  - unfold _extract_features. now rewrite sum_channels_frontal.
  - unfold _extract_features. rewrite sum_channels_frontal.
    replace (List.filter (fun c => is_frontal (fst c))
               (List.filter (fun c => negb (is_frontal (fst c))) chans))
      with (@nil (string * option band_powers)); [reflexivity|].
    induction chans as [|[c sp] rest IH]; [reflexivity|].
    cbn [List.filter fst]. destruct (is_frontal c) eqn:E; cbn [negb]; [exact IH|].
    cbn [List.filter fst]. rewrite E. exact IH.
Qed.

Lemma sum_channels_raises (before after : list (string * option band_powers))
    (c : string) (acc : band_sums) :
  is_frontal c = true -> sum_channels (before ++ (c, None) :: after) acc = None.
Proof.
  intros Hc. revert acc. induction before as [|[c' sp] rest IH]; intros acc.
  - cbn [app sum_channels]. now rewrite Hc.
  - cbn [app sum_channels]. destruct (is_frontal c'); [|apply IH].
    destruct sp; [apply IH | reflexivity].
Qed.

(** X11.  One frontal channel whose spectral estimate raises costs the whole
    sample: the features are the seven zeros, whatever the other channels
    hold. *)
Theorem extract_features_exception (before after : list (string * option band_powers))
    (c : string) :
  is_frontal c = true ->
  _extract_features (before ++ (c, None) :: after) = all_zero.
Proof.
  intros Hc. unfold _extract_features. now rewrite sum_channels_raises.
Qed.

Lemma extract_features_exception_witness :
  _extract_features [finite_channel "F3" 1 2 3 4; ("AF4"%string, None);
                     finite_channel "F8" 5 6 7 8] = all_zero.
Proof.
  apply (extract_features_exception [finite_channel "F3" 1 2 3 4]
           [finite_channel "F8" 5 6 7 8] "AF4"). reflexivity.
Defined.




Lemma raw_score_range_witness :
  exists r,
    snd (_calculate_confusion_score (run init [])
           (finite_features 1 1 1 0 1) (Fin 0)) = Fin r
    /\ 0 <= r <= 1 + 0.
Proof. apply (raw_score_range [] 1 1 1 0 1 0); lra. Defined.

Lemma trend_of_monotone_scores_witness :
  get_confusion_trend
    (with_history init (map Fin ([] ++ [0; 1#10; 2#10; 3#10; 4#10])))
  = Some increasing.
Proof.
  apply (proj1 (trend_of_monotone_scores init [] 0 (1#10) (2#10) (3#10) (4#10))).
  repeat split.
Defined.

End DetectorExtras.

(** ** Smoothing, correction and buffers *)

Module ProcessorExtras.
Import Processor ProcessorFacts.

(** *** Smoothing *)







(** *** Artifact correction *)

Lemma map_indexed_Forall2 {A B : Type} (R : A -> B -> Prop) (g : nat * A -> B)
    (l : list A) (idx : list nat) :
  length idx = length l ->
  (forall i x, In x l -> R x (g (i, x))) ->
  Forall2 R l (map g (combine idx l)).
Proof.
  revert idx. induction l as [|x l IH]; intros [|i idx] Hlen H; try discriminate Hlen.
  - constructor.
  - cbn [combine map]. constructor; [apply H; now left|].
    apply IH; [now injection Hlen | intros j y Hy; apply H; now right].
Qed.

(** X15.  Correction returns a window of the same length in which every sample
    that was within the amplitude threshold is the sample that came in. *)
Theorem correction_keeps_clean_samples (s : list pyfloat) :
  length (_correct_artifacts s) = length s
  /\ Forall2 (fun x y => is_outlier x = false -> y = x) s (_correct_artifacts s).
Proof.
  assert (Hsame : Forall2 (fun x y : pyfloat => is_outlier x = false -> y = x) s s).
  { induction s; constructor; auto. }
  unfold _correct_artifacts. destruct (existsb is_outlier s); [|now split].
  destruct (1 <? length _)%nat; [|now split]. split.
  - now rewrite length_map, length_combine, length_seq, Nat.min_id.
  - apply map_indexed_Forall2; [apply length_seq|].
    intros i x _ Hx. cbn [fst snd]. now rewrite Hx.
Qed.

Lemma clean_iff (y : Q) : is_outlier (Fin y) = false <-> -(200) <= y <= 200.
Proof.
  unfold is_outlier, amplitude_threshold, fgtb, fabs, fltb.
  rewrite Qltb_ge. apply Qabs_Qle_condition.
Qed.

Lemma of_nat_le (a b : nat) : (a <= b)%nat ->
  inject_Z (Z.of_nat a) <= inject_Z (Z.of_nat b).
Proof. intros H. rewrite <- Zle_Qle. lia. Qed.

Lemma of_nat_lt (a b : nat) : (a < b)%nat ->
  inject_Z (Z.of_nat a) < inject_Z (Z.of_nat b).
Proof. intros H. rewrite <- Zlt_Qlt. lia. Qed.

Lemma segment_bounded (y0 y1 X0 X X1 : Q) :
  X0 <= X -> X < X1 -> -(200) <= y0 <= 200 -> -(200) <= y1 <= 200 ->
  -(200) <= (y1 - y0) / (X1 - X0) * (X - X0) + y0 <= 200.
Proof.
  intros H0 H1 Hy0 Hy1.
  set (t := (X - X0) / (X1 - X0)).
  assert (Ht : 0 <= t <= 1).
  { subst t. split.
    - apply Qle_shift_div_l; lra.
    - apply Qle_shift_div_r; lra. }
  assert (E : (y1 - y0) / (X1 - X0) * (X - X0) + y0 == y0 + (y1 - y0) * t).
  { subst t. field. lra. }
  rewrite E. clearbody t. split; nra.
Qed.

Lemma interp_from_bounded (points : list (nat * pyfloat)) (x x0 : nat) (y0 : Q) :
  (x0 <= x)%nat -> -(200) <= y0 <= 200 -> Forall clean_point points ->
  exists r, interp_from x x0 (Fin y0) points = Fin r /\ -(200) <= r <= 200.
Proof.
  revert x0 y0. induction points as [|[x1 y1] rest IH]; intros x0 y0 Hx Hy Hall.
  - now exists y0.
  - apply Forall_cons in Hall as [(y & Ey & Hy1) Hrest]. cbn [snd] in Ey. subst y1.
    cbn [interp_from]. destruct (x <? x1)%nat eqn:E.
    + apply Nat.ltb_lt in E. unfold of_nat, fsub, fdiv, lift2.
      pose proof (of_nat_le _ _ Hx) as H0. pose proof (of_nat_lt _ _ E) as H1.
      assert (Hz : Qeq_bool (inject_Z (Z.of_nat x1) - inject_Z (Z.of_nat x0)) 0 = false).
      { apply not_true_iff_false. intros E'. apply Qeq_bool_iff in E'. lra. }
      rewrite Hz. cbn [fmul fadd lift2]. eexists. split; [reflexivity|].
      now apply segment_bounded.
    + apply Nat.ltb_ge in E. now apply IH.
Qed.

Lemma np_interp_bounded (points : list (nat * pyfloat)) (x : nat) :
  points <> [] -> Forall clean_point points ->
  exists r, np_interp x points = Fin r /\ -(200) <= r <= 200.
Proof.
  intros Hne Hall. destruct points as [|[x0 y0] rest]; [contradiction|].
  apply Forall_cons in Hall as [(y & Ey & Hy) Hrest]. cbn [snd] in Ey. subst y0.
  cbn [np_interp]. destruct (x <=? x0)%nat eqn:E; [now exists y|].
  apply Nat.leb_gt in E. apply interp_from_bounded; [lia | exact Hy | exact Hrest].
Qed.

Lemma valid_count (w : list Q) (k : nat) :
  length (List.filter (fun ix : nat * pyfloat => negb (is_outlier (snd ix)))
            (combine (seq k (length w)) (map Fin w)))
  = length (List.filter (fun x => negb (is_outlier (Fin x))) w).
Proof.
  revert k. induction w as [|x w IH]; intros k; [reflexivity|].
  cbn [length seq map combine List.filter snd].
  destruct (negb (is_outlier (Fin x))); cbn [length]; now rewrite IH.
Qed.

(** X16.  When at least two samples of a window of numbers are within the
    amplitude threshold, correction leaves no sample beyond it. *)
Theorem correction_removes_outliers (w : list Q) :
  (2 <= length (List.filter (fun x => negb (is_outlier (Fin x))) w))%nat ->
  existsb is_outlier (_correct_artifacts (map Fin w)) = false.
Proof.
  intros Hclean. unfold _correct_artifacts.
  destruct (existsb is_outlier (map Fin w)) eqn:Hout; [|exact Hout].
  set (indexed := combine (seq 0 (length (map Fin w))) (map Fin w)).
  set (valid := List.filter (fun ix => negb (is_outlier (snd ix))) indexed).
  assert (Hvalid : Forall clean_point valid).
  { apply List.Forall_forall. intros [i x] Hin. subst valid.
    apply List.filter_In in Hin as [Hin Hx]. cbn [snd] in Hx.
    apply in_combine_r, in_map_iff in Hin as (y & <- & _).
    exists y. split; [reflexivity|]. apply clean_iff. now apply negb_true_iff. }
  assert (Hlen : length valid
                 = length (List.filter (fun x => negb (is_outlier (Fin x))) w)).
  { subst valid indexed. rewrite length_map. apply valid_count. }
  replace (1 <? length valid)%nat with true by (symmetry; apply Nat.ltb_lt; lia).
  apply not_true_iff_false. intros Hex.
  apply existsb_exists in Hex as (y & Hin & Hy).
  apply in_map_iff in Hin as ([i x] & <- & Hin). cbn [fst snd] in Hy.
  destruct (is_outlier x) eqn:Hx; [|congruence].
  destruct (np_interp_bounded valid i) as (r & Er & Hr); [|exact Hvalid|].
  - intros E. rewrite E in Hlen. cbn [length] in Hlen. lia.
  - rewrite Er in Hy. apply clean_iff in Hr. congruence.
Qed.

Lemma correction_removes_outliers_witness :
  existsb is_outlier (_correct_artifacts (map Fin noisy_window)) = false.
Proof. apply correction_removes_outliers. vm_compute. lia. Defined.

(** *** Buffers across calls *)

Lemma feed_sample_rate (batches : list (list (string * signal_data)))
    (p : DataProcessor) :
  sample_rate (feed p batches) = sample_rate p.
Proof.
  revert p. induction batches as [|b rest IH]; intros p; [reflexivity|].
  rewrite feed_cons, IH. apply process_sample_rate.
Qed.

(** X17.  After [reset_buffers] the processor behaves like a new one of the same
    sample rate: what was fed before the reset leaves no trace in what is
    buffered afterwards. *)
Theorem reset_forgets_history (rate : Z)
    (before after : list (list (string * signal_data))) :
  feed (reset_buffers (feed (init rate) before)) after = feed (init rate) after.
Proof.
  unfold reset_buffers. rewrite feed_sample_rate. reflexivity.
Qed.

Lemma buffer_channel_well (p p' : DataProcessor) (c : string) (data : signal_data) :
  (0 <= sample_rate p)%Z -> well_buffered p -> buffer_channel p c data = Some p' ->
  well_buffered p' /\ sample_rate p' = sample_rate p.
Proof.
  intros Hr Hw E. rewrite buffer_channel_some in E by exact Hr.
  injection E as <-. split; [|reflexivity].
  intros c' dq. cbn [channel_buffers]. unfold buffer_size. cbn [sample_rate].
  fold (buffer_size p).
  destruct (String.eqb_spec c c') as [<-|Hne].
  - rewrite lookup_insert_eq. intros [= <-].
    assert (H0 : maxlen (default (fresh p) (channel_buffers p !! c))
                 = Z.to_nat (buffer_size p)
                 /\ (length (items (default (fresh p) (channel_buffers p !! c)))
                     <= maxlen (default (fresh p) (channel_buffers p !! c)))%nat).
    { destruct (channel_buffers p !! c) as [dq|] eqn:El; cbn [default].
      - now apply (Hw c).
      - cbn. split; [reflexivity | lia]. }
    destruct H0 as [Hm Hl].
    rewrite deque_extend_maxlen, deque_extend_items by exact Hl.
    split; [exact Hm|]. rewrite last_n_length. lia.
  - rewrite lookup_insert_ne by exact Hne. apply Hw.
Qed.

Lemma process_well (batch : list (string * signal_data)) (p : DataProcessor) :
  (0 <= sample_rate p)%Z -> well_buffered p -> well_buffered (process_eeg_signal p batch).
Proof.
  revert p. induction batch as [|[c data] rest IH]; intros p Hr Hw; [exact Hw|].
  cbn [process_eeg_signal]. destruct (buffer_channel p c data) as [p'|] eqn:E;
    [|exact Hw].
  destruct (buffer_channel_well p p' c data Hr Hw E) as [Hw' Hr'].
  apply IH; [now rewrite Hr' | exact Hw'].
Qed.

Lemma feed_well (batches : list (list (string * signal_data))) (p : DataProcessor) :
  (0 <= sample_rate p)%Z -> well_buffered p -> well_buffered (feed p batches).
Proof.
  revert p. induction batches as [|b rest IH]; intros p Hr Hw; [exact Hw|].
  rewrite feed_cons. apply IH; [now rewrite process_sample_rate | now apply process_well].
Qed.

Section Returned.

Variable process_channel : string -> list pyfloat -> list pyfloat * pyfloat.

Lemma returning_state (eeg : list (string * signal_data)) (p : DataProcessor)
    (out : processed_data) :
  fst (process_eeg_signal_returning process_channel p eeg out)
  = process_eeg_signal p eeg.
Proof.
  revert p out. induction eeg as [|[c data] rest IH]; intros p out; [reflexivity|].
  cbn [process_eeg_signal_returning process_eeg_signal]. unfold process_channel_entry.
  destruct (buffer_channel p c data) as [p'|]; [|reflexivity].
  destruct (128 <=? _)%nat; [destruct (process_channel c _)|]; apply IH.
Qed.

Lemma returning_echoes (eeg : list (string * signal_data)) (p : DataProcessor)
    (out : processed_data) :
  (0 <= sample_rate p)%Z -> (Z.to_nat (buffer_size p) < 128)%nat -> well_buffered p ->
  snd (process_eeg_signal_returning process_channel p eeg out)
  = Some {| eeg_of := eeg_of out ++ eeg_of (all_echoed eeg);
            quality_of := quality_of out ++ quality_of (all_echoed eeg) |}.
Proof.
  revert p out. induction eeg as [|[c data] rest IH]; intros p out Hr Hcap Hw.
  - cbn. rewrite !app_nil_r. now destruct out.
  - cbn [process_eeg_signal_returning]. unfold process_channel_entry.
    destruct (buffer_channel p c data) as [p'|] eqn:E.
    + destruct (buffer_channel_well p p' c data Hr Hw E) as [Hw' Hr'].
      assert (Hcap' : (Z.to_nat (buffer_size p') < 128)%nat)
        by (unfold buffer_size in *; now rewrite Hr').
      replace (128 <=? _)%nat with false.
      * rewrite IH by (assumption || now rewrite Hr').
        cbn [eeg_of quality_of all_echoed map fst snd]. now rewrite <- !app_assoc.
      * symmetry. apply Nat.leb_gt.
        destruct (channel_buffers p' !! c) as [dq|] eqn:El; [|cbn; lia].
        destruct (Hw' c dq El) as [Hm Hl]. lia.
    + rewrite buffer_channel_some in E by exact Hr. discriminate E.
Qed.

End Returned.

(** X18.  The processing branch waits for 128 buffered samples whatever the
    sample rate is.  A processor whose capacity [2 * sample_rate] is below
    128 therefore never filters: however much was fed, every channel of every
    call is echoed with quality 0.5. *)
Theorem slow_rate_never_filters
    (process_channel : string -> list pyfloat -> list pyfloat * pyfloat)
    (rate : Z) (batches : list (list (string * signal_data)))
    (eeg : list (string * signal_data)) :
  (0 <= rate < 64)%Z ->
  snd (process_eeg_signal_returning process_channel (feed (init rate) batches)
         eeg empty_dict)
  = Some (all_echoed eeg).
Proof.
  intros Hr. rewrite returning_echoes.
  - reflexivity.
  - rewrite feed_sample_rate. cbn. lia.
  - unfold buffer_size. rewrite feed_sample_rate. cbn. lia.
  - apply feed_well; [cbn; lia|]. intros c dq H. cbn in H.
    rewrite lookup_empty in H. discriminate H.
Qed.

Lemma slow_rate_never_filters_witness :
  snd (process_eeg_signal_returning (fun _ l => (l, Fin 1)) (feed (init 1) two_batches)
         [("AF3"%string, Scalar (Fin 5))] empty_dict)
  = Some (all_echoed [("AF3"%string, Scalar (Fin 5))]).
Proof. apply slow_rate_never_filters. lia. Defined.

End ProcessorExtras.

(** ** Registration, messages and sweep *)

Module ManagerExtras.
Import Manager ManagerFacts.

Lemma fold_delete_lookup (clients : list WebSocket) (d : gmap nat client_info)
    (ws : WebSocket) :
  fold_left (fun d c => delete c d) clients d !! ws
  = if existsb (Nat.eqb ws) clients then None else d !! ws.
Proof.
  revert d. induction clients as [|c rest IH]; intros d; [reflexivity|].
  cbn [fold_left existsb]. rewrite IH.
  destruct (Nat.eqb_spec ws c) as [->|Hne]; cbn [orb].
  - rewrite lookup_delete_eq. now destruct (existsb (Nat.eqb c) rest).
  - rewrite lookup_delete_ne by congruence. reflexivity.
Qed.


Lemma personal_message_spec (net : network) (msg : message)
    (ws : WebSocket) (s : state) :
  fst (send_personal_message net msg ws s) = Return tt
  /\ (if send_raises net ws
      then manager (snd (send_personal_message net msg ws s))
           = disconnect_manager ws (manager s)
           /\ wire (snd (send_personal_message net msg ws s)) = wire s
      else manager (snd (send_personal_message net msg ws s)) = manager s
           /\ wire (snd (send_personal_message net msg ws s)) = wire s ++ [(ws, msg)]).
Proof.
  unfold send_personal_message, try_except, send_text.
  destruct (send_raises net ws); [|repeat split].
  destruct (handle_connection_error_spec net ws s) as (Hr & Hm & Hw).
  repeat split; assumption.
Qed.

(** X20.  [send_personal_message] never raises: a send that goes through puts
    the message on the wire and leaves the manager alone, and a send that
    raises disconnects the socket and sends nothing. *)
Theorem personal_message_never_raises (net : network) (msg : message)
    (ws : WebSocket) (s : state) :
  let r := send_personal_message net msg ws s in
  fst r = Return tt
  /\ (if send_raises net ws
      then manager (snd r) = disconnect_manager ws (manager s) /\ wire (snd r) = wire s
      else manager (snd r) = manager s /\ wire (snd r) = wire s ++ [(ws, msg)]).
Proof. cbv zeta. apply personal_message_spec. Qed.

Lemma list_remove_snoc (ws : WebSocket) (l : list WebSocket) :
  ~ In ws l -> list_remove ws (l ++ [ws]) = l.
Proof.
  induction l as [|a l IH]; intros H.
  - cbn. now rewrite Nat.eqb_refl.
  - cbn [app list_remove]. destruct (Nat.eqb_spec ws a) as [->|Hne].
    + exfalso. apply H. now left.
    + f_equal. apply IH. intros Hin. apply H. now right.
Qed.

Lemma disconnect_after_register (ws : WebSocket) (m : ConnectionManager)
    (info : client_info) :
  ~ In ws (active_connections m) -> client_data m !! ws = None ->
  disconnect_manager ws
    {| active_connections := active_connections m ++ [ws];
       client_data := <[ws := info]> (client_data m) |}
  = m.
Proof.
  intros Hin Hnone. rewrite disconnect_manager_eq. cbn [active_connections client_data].
  rewrite list_remove_snoc by exact Hin.
  rewrite delete_insert_id by exact Hnone. now destruct m.
Qed.

(** X21.  Registering a socket the manager does not know and disconnecting it
    again gives the manager back as it was; and when the welcome message
    cannot be sent, [connect] itself already leaves the manager as it was:
    the socket is accepted, registered and dropped within the call. *)
Theorem connect_then_disconnect (net : network) (t1 t2 : Q) (ws : WebSocket)
    (s : state) :
  ~ In ws (active_connections (manager s)) ->
  client_data (manager s) !! ws = None ->
  fst (connect net false t1 t2 ws s) = Return tt
  /\ manager (snd (disconnect ws (snd (connect net false t1 t2 ws s)))) = manager s
  /\ (if send_raises net ws
      then manager (snd (connect net false t1 t2 ws s)) = manager s
      else In ws (active_connections (manager (snd (connect net false t1 t2 ws s))))
           /\ client_data (manager (snd (connect net false t1 t2 ws s))) !! ws
              = Some {| connected_at := t1; last_ping := t2 |}
           /\ wire (snd (connect net false t1 t2 ws s))
              = wire s ++ [(ws, connection_established)]).
Proof.
  intros Hin Hnone.
  set (m1 := {| active_connections := active_connections (manager s) ++ [ws];
                client_data := <[ws := {| connected_at := t1; last_ping := t2 |}]>
                                 (client_data (manager s)) |}).
  set (s1 := {| manager := m1; wire := wire s; closed := closed s |}).
  change (connect net false t1 t2 ws s)
    with (send_personal_message net connection_established ws s1).
  destruct (personal_message_spec net connection_established ws s1) as (Hr & Hcase).
  assert (Hback : disconnect_manager ws m1 = manager s)
    by (now apply disconnect_after_register).
  assert (Hunknown : disconnect_manager ws (manager s) = manager s).
  { rewrite disconnect_manager_eq, delete_id by exact Hnone.
    rewrite list_remove_absent; [now destruct (manager s)|].
    apply not_true_iff_false. intros H.
    apply existsb_exists in H as (c & Hc & E). apply Nat.eqb_eq in E. now subst c. }
  split; [exact Hr|].
  change (manager (snd (disconnect ws ?x))) with (disconnect_manager ws (manager x)).
  destruct (send_raises net ws); destruct Hcase as [Hm Hw]; rewrite Hm.
  - change (manager s1) with m1. rewrite Hback. split; [exact Hunknown | reflexivity].
  - change (manager s1) with m1. split; [exact Hback|]. rewrite Hw.
    repeat split.
    + apply in_or_app. right. now left.
    + apply lookup_insert_eq.
Qed.

Lemma connect_then_disconnect_witness :
  fst (connect (failing []) false 7 7 4%nat (serving [1; 2]%nat)) = Return tt
  /\ manager (snd (disconnect 4%nat
                     (snd (connect (failing []) false 7 7 4%nat (serving [1; 2]%nat)))))
     = manager (serving [1; 2]%nat).
Proof.
  assert (Hin : ~ In 4%nat (active_connections (manager (serving [1; 2]%nat))))
    by (cbn; lia).
  assert (Hnone : client_data (manager (serving [1; 2]%nat)) !! 4%nat = None)
    by (vm_compute; reflexivity).
  pose proof (connect_then_disconnect (failing []) 7 7 4%nat (serving [1; 2]%nat)
                Hin Hnone) as (Hr & Hback & _).
  split; [exact Hr | exact Hback].
Defined.

(** X22.  A ping sets the sender's [last_ping] to the time of the call
    whatever its payload, changes no other entry, creates none for a sender
    without client data, and leaves the subscribers as they are.  When the
    payload is an object and the answer can be sent, one [pong] goes to the
    sender; when the payload is not an object, building the pong raises
    after [last_ping] was set, the handler logs the error and nothing is
    sent. *)
Theorem ping_refreshes_last_ping (net : network) (now : Q) (ws : WebSocket)
    (payload_is_object : bool) (s : state) :
  send_raises net ws = false ->
  let r := handle_client_message net now ws (ping payload_is_object) s in
  fst r = Return tt
  /\ wire (snd r) = wire s ++ (if payload_is_object then [(ws, pong)] else [])
  /\ active_connections (manager (snd r)) = active_connections (manager s)
  /\ client_data (manager (snd r)) !! ws
     = (fun info => {| connected_at := connected_at info; last_ping := now |})
         <$> client_data (manager s) !! ws
  /\ (forall other, other <> ws ->
        client_data (manager (snd r)) !! other = client_data (manager s) !! other).
Proof.
  intros Hok. cbv zeta.
  unfold handle_client_message, try_except, _handle_ping, bind,
    send_personal_message, try_except, send_text, raise, ret.
  destruct payload_is_object;
    cbn [manager wire closed]; rewrite ?Hok;
    cbn [fst snd manager wire active_connections client_data];
    rewrite ?app_nil_r.
  all: repeat split.
  all: try (destruct (client_data (manager s) !! ws) eqn:E;
            cbn [fmap option_fmap option_map];
            [apply lookup_insert_eq | exact E]).
  all: intros other Hne; destruct (client_data (manager s) !! ws); [|reflexivity];
    now apply lookup_insert_ne.
Qed.

Lemma ping_refreshes_last_ping_witness :
  (wire (snd (handle_client_message (failing []) 600 2%nat (ping true)
                three_clients))
     = wire three_clients ++ [(2%nat, pong)]
   /\ client_data (manager (snd (handle_client_message (failing []) 600 2%nat
                                   (ping true) three_clients))) !! 2%nat
      = (fun info => {| connected_at := connected_at info; last_ping := 600 |})
          <$> client_data (manager three_clients) !! 2%nat)
  /\ (wire (snd (handle_client_message (failing []) 600 2%nat (ping false)
                   three_clients))
      = wire three_clients ++ []
      /\ client_data (manager (snd (handle_client_message (failing []) 600 2%nat
                                      (ping false) three_clients))) !! 2%nat
         = (fun info => {| connected_at := connected_at info; last_ping := 600 |})
             <$> client_data (manager three_clients) !! 2%nat).
Proof.
  pose proof (ping_refreshes_last_ping (failing []) 600 2%nat true three_clients
                eq_refl) as (_ & Hw & _ & Hd & _).
  pose proof (ping_refreshes_last_ping (failing []) 600 2%nat false three_clients
                eq_refl) as (_ & Hw' & _ & Hd' & _).
  split; split; assumption.
Defined.

(** X23.  A status request that can be answered sends the number of active
    connections to the requester and changes nothing else, and a message
    of unknown type is ignored. *)
Theorem status_request_counts_connections (net : network) (now : Q)
    (ws : WebSocket) (s : state) :
  send_raises net ws = false ->
  handle_client_message net now ws request_status s
  = (Return tt,
     {| manager := manager s;
        wire := wire s
                ++ [(ws, status_response (length (active_connections (manager s))))];
        closed := closed s |})
  /\ handle_client_message net now ws unknown s = (Return tt, s).
Proof.
  intros Hok. split; [|reflexivity].
  unfold handle_client_message, try_except, _handle_status_request,
    send_personal_message, try_except, send_text.
  rewrite Hok. reflexivity.
Qed.

Lemma status_request_counts_connections_witness :
  handle_client_message (failing []) 0 1%nat request_status three_clients
  = (Return tt,
     {| manager := manager three_clients;
        wire := wire three_clients
                ++ [(1%nat, status_response
                              (length (active_connections (manager three_clients))))];
        closed := closed three_clients |}).
Proof.
  apply (status_request_counts_connections (failing []) 0 1%nat three_clients).
  reflexivity.
Defined.

Lemma handler_validates (t : pyfloat) :
  in_unit (validate_threshold t) = true
  /\ validate_threshold (validate_threshold t) = validate_threshold t.
Proof.
  destruct t as [x|]; [|split; reflexivity].
  unfold validate_threshold. rewrite py_min_fin, py_max_fin, py_min_fin, py_max_fin.
  pose proof (qmin_bounds 1 x) as [H1 _].
  pose proof (qmax_bounds 0 (qmin 1 x)) as [H0 _].
  assert (Hle : qmax 0 (qmin 1 x) <= 1)
    by (unfold qmax; destruct (Qltb 0 (qmin 1 x)); lra).
  split.
  - apply in_unit_fin. split; assumption.
  - f_equal.
    assert (E1 : qmin 1 (qmax 0 (qmin 1 x)) = qmax 0 (qmin 1 x)).
    { unfold qmin at 1. destruct (Qltb (qmax 0 (qmin 1 x)) 1) eqn:E; [reflexivity|].
      apply Qltb_ge in E. unfold qmax in *.
      destruct (Qltb 0 (qmin 1 x)) eqn:E0.
      - unfold qmin in *. destruct (Qltb x 1) eqn:Ex; [|reflexivity].
        apply Qltb_lt in Ex. lra.
      - lra. }
    rewrite E1. unfold qmax at 1.
    destruct (Qltb 0 (qmax 0 (qmin 1 x))) eqn:E; [reflexivity|].
    apply Qltb_ge in E. unfold qmax in *.
    destruct (Qltb 0 (qmin 1 x)) eqn:E0; [|reflexivity].
    apply Qltb_lt in E0. lra.
Qed.

(** X24.  The value announced by [_handle_threshold_update] is within [0,1]
    for every payload: a missing ["threshold"] key announces the default
    0.7, and NaN announces 1.0 because it is the second operand of [min]. *)
Theorem announced_threshold_in_unit (net : network) (ws : WebSocket)
    (payload : option pyfloat) (s : state) :
  exists t,
    wire (snd (_handle_threshold_update net ws payload s))
    = wire s ++ map (fun c => (c, threshold_updated t))
                    (List.filter (fun c => negb (send_raises net c))
                                 (active_connections (manager s)))
    /\ in_unit t = true
    /\ t = validate_threshold (default (Fin (7#10)) payload)
    /\ validate_threshold (Fin (7#10)) = Fin (7#10)
    /\ validate_threshold NaN = Fin 1.
Proof.
  exists (validate_threshold (default (Fin (7#10)) payload)).
  split; [|split; [apply handler_validates | repeat split]].
  unfold _handle_threshold_update.
  destruct payload; apply broadcast_spec.
Qed.

(** *** The stale sweep *)

Lemma filter_twice (f g : WebSocket -> bool) (l : list WebSocket) :
  List.filter f (List.filter g l) = List.filter (fun x => g x && f x) l.
Proof.
  induction l as [|a l IH]; [reflexivity|].
  cbn [List.filter]. destruct (g a); cbn [andb List.filter]; [|exact IH].
  destruct (f a); now rewrite IH.
Qed.

Lemma fold_remove_listed (clients l : list WebSocket) :
  List.NoDup l ->
  fold_left (fun l ws => list_remove ws l) clients l
  = List.filter (fun x => negb (existsb (Nat.eqb x) clients)) l.
Proof.
  revert l. induction clients as [|c rest IH]; intros l Hnd.
  - cbn. symmetry. now apply filter_all.
  - cbn [fold_left existsb]. rewrite <- (filter_is_not c l Hnd).
    rewrite IH by now apply List.NoDup_filter.
    rewrite filter_twice. apply List.filter_ext. intros x.
    now rewrite negb_orb.
Qed.

Lemma stale_listed (now : Q) (m : ConnectionManager) (ws : WebSocket) :
  existsb (Nat.eqb ws)
    (map fst (List.filter (fun wd => is_stale now (snd wd)) (map_to_list (client_data m))))
  = stale_socket now m ws.
Proof.
  apply eq_true_iff_eq. unfold stale_socket. rewrite existsb_exists.
  unfold WebSocket in *. split.
  - intros (c & Hc & E). apply Nat.eqb_eq in E. subst c.
    apply in_map_iff in Hc as ([w data] & Ew & Hin). cbn [fst] in Ew. subst w.
    apply List.filter_In in Hin as [Hin Hs]. cbn [snd] in Hs.
    apply list_elem_of_In, elem_of_map_to_list in Hin. now rewrite Hin.
  - destruct (client_data m !! ws) as [data|] eqn:E; [|discriminate].
    intros Hs. exists ws. split; [|apply Nat.eqb_refl].
    apply in_map_iff. exists (ws, data). split; [reflexivity|].
    apply List.filter_In. split; [|exact Hs].
    now apply list_elem_of_In, elem_of_map_to_list.
Qed.

(** X25.  The sweep returns normally and sends nothing.  It drops the client
    data of exactly the sockets whose last ping is more than 300 seconds
    old, and removes those sockets from a duplicate-free active list; a
    socket without client data is never swept. *)
Theorem stale_sweep_removes_stale (net : network) (now : Q) (s : state) :
  List.NoDup (active_connections (manager s)) ->
  let r := cleanup_stale_connections net now s in
  fst r = Return tt
  /\ wire (snd r) = wire s
  /\ active_connections (manager (snd r))
     = List.filter (fun ws => negb (stale_socket now (manager s) ws))
                   (active_connections (manager s))
  /\ (forall ws,
        client_data (manager (snd r)) !! ws
        = if stale_socket now (manager s) ws then None
          else client_data (manager s) !! ws).
Proof.
  intros Hnd. cbv zeta. unfold cleanup_stale_connections.
  match goal with
  | |- context [clean_up net ?cs s] =>
      destruct (clean_up_spec net cs s) as (Hr & Hm & Hw)
  end.
  rewrite Hr, Hm, Hw, fold_disconnect. cbn [active_connections client_data].
  split; [reflexivity|]. split; [reflexivity|]. split.
  - rewrite fold_remove_listed by exact Hnd. apply List.filter_ext.
    intros ws. now rewrite stale_listed.
  - intros ws. now rewrite fold_delete_lookup, stale_listed.
Qed.

Lemma stale_sweep_removes_stale_witness :
  active_connections (manager (snd (cleanup_stale_connections (failing []) 450
                                      three_clients)))
  = List.filter (fun ws => negb (stale_socket 450 (manager three_clients) ws))
                (active_connections (manager three_clients))
  /\ List.filter (fun ws => negb (stale_socket 450 (manager three_clients) ws))
                 (active_connections (manager three_clients)) = [3%nat].
Proof.
  assert (Hnd : List.NoDup (active_connections (manager three_clients)))
    by (cbn; repeat constructor; cbn; lia).
  pose proof (stale_sweep_removes_stale (failing []) 450 three_clients Hnd)
    as (_ & _ & Ha & _).
  split; [exact Ha | vm_compute; reflexivity].
Defined.

End ManagerExtras.

(** ** The process *)

Module MainExtras.
Import Main.

Lemma tick_keeps_threshold (inp : tick_input) (s : server) :
  confusion_threshold (state_of (fst (bci_tick inp s)))
  = confusion_threshold (state_of s).
Proof.
  unfold bci_tick, handle_confusion_threshold_body.
  destruct (negb (bci_connected (state_of s))), (connect_result inp);
    cbn [fst snd]; try reflexivity;
    destruct (eeg_data inp) as [[f v]|]; try reflexivity;
    destruct (Detector.analyze_confusion (confusion_detector s) f v) as [d level];
    destruct (fgtb level (confusion_threshold (state_of s)));
    match goal with
    | |- context [Manager.broadcast_json ?j ?n ?m ?st] =>
        destruct (Manager.broadcast_json j n m st) as [[[]|] m']
    end; reflexivity.
Qed.

Lemma after_snoc (events : list event) (e : event) (s : server) :
  after (events ++ [e]) s = apply_event (after events s) e.
Proof. unfold after. now rewrite fold_left_app. Qed.

(** X26.  The threshold the sampling loop compares against is changed by a
    POST to /threshold and by nothing else: after any sequence of loop
    iterations, client messages and POSTs it is the validated value of the
    last POST, or the value it had when there was none; started from the
    initial 0.7 it is always within [0,1]. *)
Theorem threshold_follows_last_post (events : list event) (s : server) :
  confusion_threshold (state_of (after events s))
  = default (confusion_threshold (state_of s))
            (Manager.validate_threshold <$> last_post events)
  /\ in_unit (confusion_threshold (state_of (after events initial_server))) = true.
Proof.
  assert (H : forall s0,
    confusion_threshold (state_of (after events s0))
    = default (confusion_threshold (state_of s0))
              (Manager.validate_threshold <$> last_post events)).
  { intros s0. induction events as [|e l IH] using rev_ind; [reflexivity|].
    rewrite after_snoc. unfold last_post in *. rewrite fold_left_app. cbn [fold_left].
    destruct e as [inp | net now ws msg | t]; cbn [apply_event].
    - rewrite tick_keeps_threshold. exact IH.
    - exact IH.
    - reflexivity. }
  split; [apply H|]. rewrite H.
  destruct (last_post events) as [t|]; cbn [fmap option_fmap option_map default].
  - apply ManagerExtras.handler_validates.
  - reflexivity.
Qed.

(** X27.  An iteration that gets data stores what the scorer returned: the
    new global level is the scorer's level and the detector is the scorer's
    new state.  The advisory steps run exactly when the level exceeds the
    threshold, and the last broadcast the iteration awaits is the
    [confusion_update] with that level and that flag.  When the level is
    the float of the clamp, or nobody is subscribed, the update reaches
    every subscriber whose send goes through, the device stays connected
    and the iteration sleeps 100 ms.  When the level is a numpy scalar and
    a subscriber is left after the advisory step, serialising the update
    raises: no update is sent, [bci_connected] becomes false and the
    iteration sleeps one second. *)
Theorem data_tick_outcome (inp : tick_input) (s : server)
    (features : Detector.Features) (variation : pyfloat) :
  eeg_data inp = Some (features, variation) ->
  bci_connected (state_of s) || connect_result inp = true ->
  let scored :=
    Detector.analyze_confusion (confusion_detector s) features variation in
  let numpy_level :=
    Detector.level_is_numpy (confusion_detector s) features variation in
  let exceeded := fgtb (snd scored) (confusion_threshold (state_of s)) in
  let help := Manager.help_suggestion (snd scored) in
  let update := Manager.confusion_update (snd scored) exceeded in
  let active := Manager.active_connections (Manager.manager (manager s)) in
  let listeners :=
    List.filter (fun c => negb (Manager.send_raises (net inp) c)) active in
  let remaining := if exceeded && help_is_json inp then listeners else active in
  let raises := match remaining with [] => false | _ :: _ => numpy_level end in
  let out := bci_tick inp s in
  current_confusion_level (state_of (fst out)) = snd scored
  /\ bci_connected (state_of (fst out)) = negb raises
  /\ confusion_detector (fst out) = fst scored
  /\ existsb is_advisory_step (snd out) = exceeded
  /\ List.last (List.filter is_broadcast (snd out)) await_init_db
     = await_broadcast update
  /\ List.last (snd out) await_init_db
     = await_sleep (if raises then 1000 else 100)
  /\ Manager.wire (manager (fst out))
     = Manager.wire (manager s)
       ++ (if exceeded && help_is_json inp
           then map (fun c => (c, help)) listeners else [])
       ++ (if numpy_level then [] else map (fun c => (c, update)) listeners).
Proof.
  intros Heeg Hconn.
  destruct (MainFacts.tick_with_data inp s features variation Heeg Hconn)
    as (Hg & Hd & Ht & Hw & _).
  cbv zeta in *. rewrite Hg, Hd, Ht, Hw. cbn [current_confusion_level bci_connected].
  repeat split.
  - destruct (bci_connected (state_of s)),
      (fgtb (snd (Detector.analyze_confusion (confusion_detector s) features
                    variation)) (confusion_threshold (state_of s))); reflexivity.
  - destruct (bci_connected (state_of s)),
      (fgtb (snd (Detector.analyze_confusion (confusion_detector s) features
                    variation)) (confusion_threshold (state_of s))); reflexivity.
  - destruct (bci_connected (state_of s)),
      (fgtb (snd (Detector.analyze_confusion (confusion_detector s) features
                    variation)) (confusion_threshold (state_of s))); reflexivity.
Qed.

Lemma data_tick_outcome_witness :
  current_confusion_level (state_of (fst (bci_tick alarming served)))
  = snd (Detector.analyze_confusion (confusion_detector served)
           (Detector.finite_features 2 0 2 0 4) (Fin 0))
  /\ bci_connected (state_of (fst (bci_tick alarming served))) = false
  /\ List.last (snd (bci_tick alarming served)) await_init_db = await_sleep 1000.
Proof.
  pose proof (data_tick_outcome alarming served
                (Detector.finite_features 2 0 2 0 4) (Fin 0) eq_refl eq_refl)
    as (Hl & Hc & _ & _ & _ & Hs & _).
  split; [exact Hl | split; [exact Hc | exact Hs]].
Defined.

(** X28.  An iteration without data, or on which the device does not connect,
    broadcasts nothing and leaves the level, the detector and the manager
    as they were; it ends with the 100 ms sleep. *)
Theorem idle_tick_changes_nothing (inp : tick_input) (s : server) :
  eeg_data inp = None
  \/ (bci_connected (state_of s) = false /\ connect_result inp = false) ->
  let out := bci_tick inp s in
  current_confusion_level (state_of (fst out)) = current_confusion_level (state_of s)
  /\ confusion_detector (fst out) = confusion_detector s
  /\ manager (fst out) = manager s
  /\ existsb is_broadcast (snd out) = false
  /\ List.last (snd out) await_init_db = await_sleep 100.
Proof.
  intros H. cbv zeta. unfold bci_tick.
  destruct H as [Hnone | [Hoff Hfail]].
  - rewrite Hnone.
    destruct (negb (bci_connected (state_of s))), (connect_result inp); repeat split.
  - rewrite Hoff, Hfail. repeat split.
Qed.

Lemma idle_tick_changes_nothing_witness :
  manager (fst (bci_tick silent served)) = manager served
  /\ existsb is_broadcast (snd (bci_tick silent served)) = false.
Proof.
  pose proof (idle_tick_changes_nothing silent served (or_introl eq_refl))
    as (_ & _ & Hm & Hb & _).
  split; [exact Hm | exact Hb].
Defined.

(** X29.  Once the last stored score is NaN the process never alerts again
    and publishes nothing: every later iteration with data sets the global
    level to NaN, runs no advisory step and leaves the detector with NaN as
    its last score.  The update it builds carries NaN and the flag unset,
    and NaN is a numpy scalar: with a subscriber connected serialising the
    update raises, the iteration marks the device disconnected and sleeps
    one second; in either case nothing is sent and no subscriber is
    dropped. *)
Theorem poisoned_detector_never_alerts (inp : tick_input) (s : server)
    (d : Detector.ConfusionDetector) (h : list pyfloat)
    (features : Detector.Features) (variation : pyfloat) :
  eeg_data inp = Some (features, variation) ->
  bci_connected (state_of s) || connect_result inp = true ->
  let active := Manager.active_connections (Manager.manager (manager s)) in
  let subscribed := match active with [] => false | _ :: _ => true end in
  let out :=
    bci_tick inp (with_detector s (Detector.with_history d (h ++ [NaN]))) in
  current_confusion_level (state_of (fst out)) = NaN
  /\ existsb is_advisory_step (snd out) = false
  /\ List.last (List.filter is_broadcast (snd out)) await_init_db
     = await_broadcast (Manager.confusion_update NaN false)
  /\ Manager.wire (manager (fst out)) = Manager.wire (manager s)
  /\ Manager.active_connections (Manager.manager (manager (fst out))) = active
  /\ bci_connected (state_of (fst out)) = negb subscribed
  /\ List.last (snd out) await_init_db
     = await_sleep (if subscribed then 1000 else 100)
  /\ exists h',
       Detector.confusion_history (confusion_detector (fst out)) = h' ++ [NaN].
Proof.
  intros Heeg Hconn. cbv zeta.
  set (s' := with_detector s (Detector.with_history d (h ++ [NaN]))).
  destruct (DetectorExtras.nan_step (Detector.with_history d (h ++ [NaN])) h
              features variation eq_refl) as [Hnan [h' Hh']].
  pose proof (DetectorExtras.nan_level_is_numpy
                (Detector.with_history d (h ++ [NaN])) h features variation eq_refl)
    as Hnp.
  destruct (MainFacts.tick_with_data inp s' features variation Heeg Hconn)
    as (Hg & Hd & Ht & Hw & Ha).
  cbv zeta in Hg, Hd, Ht, Hw, Ha.
  change (confusion_detector s') with (Detector.with_history d (h ++ [NaN])) in *.
  change (state_of s') with (state_of s) in *.
  change (manager s') with (manager s) in *.
  rewrite Hnan, Hnp in *.
  replace (fgtb NaN (confusion_threshold (state_of s))) with false in *
    by (now destruct (confusion_threshold (state_of s))).
  cbn [andb] in *.
  rewrite Hg, Hd, Ht, Hw, Ha. cbn [current_confusion_level bci_connected].
  split; [reflexivity|].
  split; [now destruct (bci_connected (state_of s))|].
  split; [now destruct (bci_connected (state_of s))|].
  split; [now rewrite !app_nil_r|].
  split; [reflexivity|].
  split; [now destruct (Manager.active_connections (Manager.manager (manager s)))|].
  split.
  - destruct (bci_connected (state_of s)),
      (Manager.active_connections (Manager.manager (manager s))); reflexivity.
  - now exists h'.
Qed.

Lemma poisoned_detector_never_alerts_witness :
  current_confusion_level
    (state_of (fst (bci_tick alarming
                      (with_detector served
                         (Detector.with_history Detector.init ([] ++ [NaN]))))))
  = NaN
  /\ Manager.wire
       (manager (fst (bci_tick alarming
                        (with_detector served
                           (Detector.with_history Detector.init ([] ++ [NaN]))))))
     = Manager.wire (manager served)
  /\ bci_connected
       (state_of (fst (bci_tick alarming
                         (with_detector served
                            (Detector.with_history Detector.init ([] ++ [NaN]))))))
     = false.
Proof.
  pose proof (poisoned_detector_never_alerts alarming served Detector.init []
                (Detector.finite_features 2 0 2 0 4) (Fin 0) eq_refl eq_refl)
    as (Hl & _ & _ & Hw & _ & Hc & _).
  split; [exact Hl | split; [exact Hw | exact Hc]].
Defined.

End MainExtras.
